(** * Octograph: rate resolution and reconciliation

    A shallow embedding of [app/octopus_to_influxdb.py] and
    [app/agile_to_influxdb.py]: the two [store_series] functions with their
    nested helpers, the dictionaries they build and the points they hand to
    the InfluxDB client.

    Conventions of the embedding

    - Python floats are binary64 primitive floats ([PrimFloat.float]);
      [*], [+] and [/] are [PrimFloat.mul], [PrimFloat.add], [PrimFloat.div].
    - Python dicts that are built and queried by key ([agile_rates_to],
      [fields], [tags]) are [gmap string _]; the configuration dict
      [rate_data], whose keys are fixed by [cmd], is a record whose fields
      are [option]s ([None]: the key is absent, subscripting raises
      [KeyError]).
    - An exception is a value [Raise e] of the [result] monad; the InfluxDB
      client is the list of batches it was asked to write.
    - The [maya] date library is not part of the repository.  Its string
      parsers and the time zone database are the class [MayaLib]; everything
      that is plain calendar arithmetic or formatting is defined here. *)

From Stdlib Require Import ZArith String Ascii List Lia PrimFloat.
From stdpp Require Import base option list gmap strings pretty.

Local Open Scope string_scope.
Local Open Scope Z_scope.
Local Open Scope list_scope.

Set Warnings "-inexact-float".

(** ** Exceptions and the result monad *)

Inductive exn : Type :=
  | KeyError (key : string)
  | ValueError (msg : string)
  | ParserError (text : string)
  | UnknownTimeZoneError (zone : string)
  | ClickException (msg : string).

Inductive result (A : Type) : Type :=
  | Ok (a : A)
  | Raise (e : exn).
Arguments Ok {A} a.
Arguments Raise {A} e.

#[global] Instance result_ret : MRet result := fun A a => Ok a.
#[global] Instance result_bind : MBind result := fun A B f m =>
  match m with
  | Ok a => f a
  | Raise e => Raise e
  end.

Definition is_Ok {A} (r : result A) : Prop := exists a, r = Ok a.

(** [d[key]] on a key that may be absent. *)
Definition getitem {A} (key : string) (slot : option A) : result A :=
  match slot with
  | Some v => Ok v
  | None => Raise (KeyError key)
  end.

(** A list comprehension whose body may raise: elements are evaluated left
    to right and the first exception aborts the comprehension. *)
Fixpoint comprehension {A B} (f : A -> result B) (l : list A) : result (list B) :=
  match l with
  | [] => Ok []
  | x :: l' => y ← f x; ys ← comprehension f l'; Ok (y :: ys)
  end.

(** A dict comprehension [{key(p): val(p) for p in l}]: a later element
    overwrites an earlier one with the same key. *)
Definition dict_comprehension {A V} (key : A -> string) (val : A -> V)
    (l : list A) : gmap string V :=
  fold_left (fun d p => <[key p := val p]> d) l ∅.

(** [d.get(key, default)]. *)
Definition dict_get {V} (d : gmap string V) (key : string) (dflt : V) : V :=
  default dflt (d !! key).

(** ** Calendar arithmetic

    Instants are whole seconds since 1970-01-01T00:00:00Z, the [MayaDT._epoch] of
    [maya] (a float there; the time stamps of the API carry no fraction of a
    second). *)

Record DateTime : Type := mkDateTime {
  dt_year : Z; dt_month : Z; dt_day : Z;
  dt_hour : Z; dt_minute : Z; dt_second : Z }.

#[global] Instance DateTime_eq_dec : EqDecision DateTime.
Proof. solve_decision. Defined.

Definition days_from_civil (y m d : Z) : Z :=
  let y' := if m <=? 2 then y - 1 else y in
  let era := y' / 400 in
  let yoe := y' - era * 400 in
  let doy := (153 * (if m >? 2 then m - 3 else m + 9) + 2) / 5 + d - 1 in
  let doe := yoe * 365 + yoe / 4 - yoe / 100 + doy in
  era * 146097 + doe - 719468.

Definition civil_from_days (z : Z) : Z * Z * Z :=
  let z' := z + 719468 in
  let era := z' / 146097 in
  let doe := z' - era * 146097 in
  let yoe := (doe - doe / 1460 + doe / 36524 - doe / 146096) / 365 in
  let doy := doe - (365 * yoe + yoe / 4 - yoe / 100) in
  let mp := (5 * doy + 2) / 153 in
  let d := doy - (153 * mp + 2) / 5 + 1 in
  let m := if mp <? 10 then mp + 3 else mp - 9 in
  (if m <=? 2 then yoe + era * 400 + 1 else yoe + era * 400, m, d).

Definition epoch_of_datetime (dt : DateTime) : Z :=
  days_from_civil (dt_year dt) (dt_month dt) (dt_day dt) * 86400
  + dt_hour dt * 3600 + dt_minute dt * 60 + dt_second dt.

Definition datetime_of_epoch (t : Z) : DateTime :=
  let days := t / 86400 in
  let secs := t mod 86400 in
  let '(y, m, d) := civil_from_days days in
  mkDateTime y m d (secs / 3600) (secs mod 3600 / 60) (secs mod 60).

(** ** Formatting ([strftime], [isoformat]) *)

Definition digit (n : Z) : string :=
  String (ascii_of_nat (48 + Z.to_nat (n mod 10))) EmptyString.

Definition pad2 (n : Z) : string := digit (n / 10) +:+ digit n.
Definition pad4 (n : Z) : string := pad2 (n / 100) +:+ pad2 n.

(** [dt.strftime('%Y-%m-%d')] *)
Definition strftime_Ymd (dt : DateTime) : string :=
  pad4 (dt_year dt) +:+ "-" +:+ pad2 (dt_month dt) +:+ "-" +:+ pad2 (dt_day dt).

(** [dt.strftime('%H:%M')] *)
Definition strftime_HM (dt : DateTime) : string :=
  pad2 (dt_hour dt) +:+ ":" +:+ pad2 (dt_minute dt).

(** [dt.isoformat()] of a naive datetime with no microseconds. *)
Definition isoformat (dt : DateTime) : string :=
  strftime_Ymd dt +:+ "T" +:+ strftime_HM dt +:+ ":" +:+ pad2 (dt_second dt).

(** ** The maya library

    [maya_parse s] is [maya.parse(s)], [maya_when s zone] is
    [maya.when(s, timezone=zone)]; both yield the instant of a [MayaDT] or
    raise.  [tz_utcoffset zone t] is the offset from UTC, in seconds, that
    the zone observes at instant [t]; it raises on an unknown zone name. *)

Class MayaLib : Type := {
  maya_parse : string -> result Z;
  maya_when : string -> string -> result Z;
  tz_utcoffset : string -> Z -> result Z }.

(** [MayaDT.iso8601()]: the naive UTC datetime in ISO format plus [Z]. *)
Definition iso8601 (t : Z) : string :=
  isoformat (datetime_of_epoch t) +:+ "Z".

(** [MayaDT.datetime(to_timezone=zone)]; without a zone the datetime is in
    UTC. *)
Definition maya_datetime `{MayaLib} (to_timezone : option string) (t : Z)
    : result DateTime :=
  match to_timezone with
  | None => Ok (datetime_of_epoch t)
  | Some zone => off ← tz_utcoffset zone t; Ok (datetime_of_epoch (t + off))
  end.

(** [maya.MayaInterval(start, end)] refuses an interval that ends before it
    starts; [dt in interval] is [start <= dt < end]. *)
Record MayaInterval : Type := mkInterval { iv_start : Z; iv_end : Z }.

Definition new_MayaInterval (start end_ : Z) : result MayaInterval :=
  if start >? end_
  then Raise (ValueError "MayaInterval cannot end before it starts")
  else Ok (mkInterval start end_).

Definition interval_contains (iv : MayaInterval) (dt : Z) : bool :=
  (iv_start iv <=? dt) && (dt <? iv_end iv).

(** ** Records exchanged with the collaborators *)

(** One consumption reading, as the retrieval code returns it; the JSON
    number [consumption] is read as a float. *)
Record Consumption : Type := mkConsumption {
  interval_start : string;
  interval_end : string;
  consumption : float }.

(** One entry of the Agile schedule. *)
Record RatePoint : Type := mkRatePoint {
  valid_from : string;
  valid_to : string;
  value_inc_vat : float }.

(** The [rate_data] dict of one supply.  [cmd] gives the electricity dict
    every key but [unit_rate], and the gas dict [standing_charge] and
    [unit_rate] only.  [unit_rate_low_zone] holds [None] when the
    configuration names no zone. *)
Record RateData : Type := mkRateData {
  standing_charge : option float;
  unit_rate : option float;
  unit_rate_high : option float;
  unit_rate_low : option float;
  unit_rate_low_start : option string;
  unit_rate_low_end : option string;
  unit_rate_low_zone : option (option string);
  agile_standing_charge : option float;
  agile_unit_rates : option (list RatePoint) }.

(** [rate_data[rate]] for a key computed at run time; the keys that
    [active_rate_field] can return hold floats. *)
Definition rate_data_getitem (rate_data : RateData) (key : string) : result float :=
  if decide (key = "unit_rate") then getitem key (unit_rate rate_data)
  else if decide (key = "unit_rate_high") then getitem key (unit_rate_high rate_data)
  else if decide (key = "unit_rate_low") then getitem key (unit_rate_low rate_data)
  else if decide (key = "standing_charge") then getitem key (standing_charge rate_data)
  else if decide (key = "agile_standing_charge")
       then getitem key (agile_standing_charge rate_data)
  else Raise (KeyError key).

(** Truth value of [rate_data['unit_rate_low_zone']]: [None] and the empty
    string are false. *)
Definition zone_truthy (zone : option string) : bool :=
  match zone with
  | None => false
  | Some z => negb (bool_decide (z = ""))
  end.

(** A field value of a point: a number or [None]. *)
Inductive field_value : Type :=
  | FNum (x : float)
  | FNone.

(** A point as handed to [InfluxDBClient.write_points]. *)
Record Point : Type := mkPoint {
  measurement : string;
  tags : gmap string string;
  time : string;
  fields : gmap string field_value }.

(** The InfluxDB client, seen as the batches written so far, oldest first. *)
Definition InfluxDBClient : Type := list (list Point).

Definition write_points (connection : InfluxDBClient) (points : list Point)
    : InfluxDBClient :=
  connection ++ [points].

(** Python's [48] in [x / 48]. *)
Definition f48 : float := 48%float.

(** ** [app/octopus_to_influxdb.py] *)

Module octopus_to_influxdb.
Section store_series.
Context `{MayaLib}.
Variables (series : string) (rate_data : RateData).

Definition agile_data : list RatePoint :=
  default [] (agile_unit_rates rate_data).

Definition agile_rates_to : gmap string float :=
  dict_comprehension valid_to value_inc_vat agile_data.

Definition agile_rates_from : gmap string float :=
  dict_comprehension valid_from value_inc_vat agile_data.

(** The format handed to [strftime] is the text [%Y-%m-%dT] followed by the
    configured clock time, which holds no [%] directive of its own. *)
Definition active_rate_field (measurement : Consumption) : result string :=
  if decide (series = "gas") then Ok "unit_rate"
  else
    zone ← getitem "unit_rate_low_zone" (unit_rate_low_zone rate_data);
    if negb (zone_truthy zone) then Ok "unit_rate_high"
    else
      low_start_str ← getitem "unit_rate_low_start" (unit_rate_low_start rate_data);
      low_end_str ← getitem "unit_rate_low_end" (unit_rate_low_end rate_data);
      let low_zone := default "" zone in
      measurement_at ← maya_parse (interval_start measurement);
      day_start ← maya_datetime (Some low_zone) measurement_at;
      low_start ← maya_when (strftime_Ymd day_start +:+ "T" +:+ low_start_str) low_zone;
      day_end ← maya_datetime (Some low_zone) measurement_at;
      low_end ← maya_when (strftime_Ymd day_end +:+ "T" +:+ low_end_str) low_zone;
      low_period ← new_MayaInterval low_start low_end;
      Ok (if interval_contains low_period measurement_at
          then "unit_rate_low" else "unit_rate_high").

Definition fields_for_measurement (measurement : Consumption)
    : result (gmap string field_value) :=
  let consumption := consumption measurement in
  rate ← active_rate_field measurement;
  rate_cost ← rate_data_getitem rate_data rate;
  let cost := (consumption * rate_cost)%float in
  standing ← getitem "standing_charge" (standing_charge rate_data);
  let standing_charge := (standing / f48)%float in
  let fields : gmap string field_value :=
    {[ "consumption" := FNum consumption;
       "cost" := FNum cost;
       "total_cost" := FNum (cost + standing_charge)%float ]} in
  match agile_data with
  | [] => Ok fields
  | _ :: _ =>
      agile_standing ← getitem "agile_standing_charge" (agile_standing_charge rate_data);
      let agile_standing_charge := (agile_standing / f48)%float in
      period ← maya_parse (interval_end measurement);
      fallback ← rate_data_getitem rate_data rate;
      let agile_unit_rate := dict_get agile_rates_to (iso8601 period) fallback in
      let agile_cost := (agile_unit_rate * consumption)%float in
      Ok (({[ "agile_rate" := FNum agile_unit_rate;
              "agile_cost" := FNum agile_cost;
              "agile_total_cost" := FNum (agile_cost + agile_standing_charge)%float ]}
            : gmap string field_value) ∪ fields)
  end.

Definition tags_for_measurement (measurement : Consumption)
    : result (gmap string string) :=
  period ← maya_parse (interval_end measurement);
  day ← maya_datetime None period;
  let time := strftime_HM day in
  rate ← active_rate_field measurement;
  Ok ({[ "active_rate" := rate; "time_of_day" := time ]} : gmap string string).

(** The body of the [measurements] comprehension. *)
Definition measurement_point (measurement : Consumption) : result Point :=
  tags ← tags_for_measurement measurement;
  fields ← fields_for_measurement measurement;
  Ok (mkPoint series tags (interval_end measurement) fields).

Definition store_series (connection : InfluxDBClient) (metrics : list Consumption)
    : result unit * InfluxDBClient :=
  match comprehension measurement_point metrics with
  | Ok measurements => (Ok tt, write_points connection measurements)
  | Raise e => (Raise e, connection)
  end.

End store_series.
End octopus_to_influxdb.

(** ** [app/agile_to_influxdb.py] *)

Module agile_to_influxdb.
Section store_series.
Context `{MayaLib}.
Variables (series : string) (agile_rates : list RatePoint).

Definition agile_rates_with_from_dates : gmap string float :=
  dict_comprehension valid_from value_inc_vat agile_rates.

(** [d.get(key, None)] stored as a field. *)
Definition field_of_get (d : gmap string float) (key : string) : field_value :=
  match d !! key with
  | Some x => FNum x
  | None => FNone
  end.

Definition fields_for_measurement (measurement : RatePoint)
    : result (gmap string field_value) :=
  from_dt ← maya_parse (valid_from measurement);
  let valid_from_iso := iso8601 from_dt in
  to_dt ← maya_parse (valid_to measurement);
  let valid_to_iso := iso8601 to_dt in
  let agile_rate_prev := field_of_get agile_rates_with_from_dates valid_from_iso in
  let agile_rate_next := field_of_get agile_rates_with_from_dates valid_to_iso in
  Ok ({[ "agile_rate_prev" := agile_rate_prev;
         "agile_rate_next" := agile_rate_next ]} : gmap string field_value).

(** The body of the [measurements] comprehension. *)
Definition measurement_point (measurement : RatePoint) : result Point :=
  fields ← fields_for_measurement measurement;
  Ok (mkPoint series ∅ (valid_to measurement) fields).

Definition store_series (connection : InfluxDBClient)
    : result unit * InfluxDBClient :=
  match agile_rates with
  | [] => (Raise (ClickException "No Agile rate data to store"), connection)
  | _ :: _ =>
      match comprehension measurement_point agile_rates with
      | Ok measurements => (Ok tt, write_points connection measurements)
      | Raise e => (Raise e, connection)
      end
  end.

End store_series.
End agile_to_influxdb.

(** ** A model of the maya library

    The parsers accept the timestamps of the Octopus API,
    [YYYY-MM-DDTHH:MM[:SS]] followed by nothing, [Z] or a numeric offset
    [+HH:MM] / [-HH:MM], and raise on anything else.  The zone database
    knows [UTC] and [Europe/London] (summer time from 01:00 UTC on the last
    Sunday of March to 01:00 UTC on the last Sunday of October). *)

Module iso_maya.

Definition digit_value (c : ascii) : option Z :=
  let n := Z.of_nat (nat_of_ascii c) in
  if (48 <=? n) && (n <=? 57) then Some (n - 48) else None.

Fixpoint digits_value (acc : Z) (s : string) : option Z :=
  match s with
  | EmptyString => Some acc
  | String c s' => d ← digit_value c; digits_value (acc * 10 + d) s'
  end.

(** The number written in the [len] characters of [s] from position [pos]. *)
Definition number_at (pos len : nat) (s : string) : option Z :=
  let sub := String.substring pos len s in
  if decide (String.length sub = len) then digits_value 0 sub else None.

Definition char_at (pos : nat) (c : ascii) (s : string) : bool :=
  bool_decide (String.get pos s = Some c).

Definition rest_from (pos : nat) (s : string) : string :=
  String.substring pos (String.length s - pos) s.

(** A calendar date and clock time that exist. *)
Definition valid_datetime (dt : DateTime) : bool :=
  bool_decide (datetime_of_epoch (epoch_of_datetime dt) = dt).

(** The naive datetime at the head of [s], and what follows it. *)
Definition parse_naive (s : string) : option (DateTime * string) :=
  y ← number_at 0 4 s;
  mo ← number_at 5 2 s;
  d ← number_at 8 2 s;
  h ← number_at 11 2 s;
  mi ← number_at 14 2 s;
  if negb (char_at 4 "-" s && char_at 7 "-" s && char_at 10 "T" s && char_at 13 ":" s)
  then None
  else
    '(sec, rest) ← (if char_at 16 ":" s
                    then sec ← number_at 17 2 s; Some (sec, rest_from 19 s)
                    else Some (0, rest_from 16 s));
    let dt := mkDateTime y mo d h mi sec in
    if valid_datetime dt then Some (dt, rest) else None.

(** The offset from UTC, in seconds, that a suffix denotes. *)
Definition parse_offset (suffix : string) : option Z :=
  if decide (suffix = "") then Some 0
  else if decide (suffix = "Z") then Some 0
  else if decide (String.length suffix = 6%nat) then
    h ← number_at 1 2 suffix;
    m ← number_at 4 2 suffix;
    if negb (char_at 3 ":" suffix) then None
    else if char_at 0 "+" suffix then Some (h * 3600 + m * 60)
    else if char_at 0 "-" suffix then Some (- (h * 3600 + m * 60))
    else None
  else None.

Definition parse (s : string) : result Z :=
  match parse_naive s with
  | Some (dt, suffix) =>
      match parse_offset suffix with
      | Some off => Ok (epoch_of_datetime dt - off)
      | None => Raise (ParserError s)
      end
  | None => Raise (ParserError s)
  end.

(** Day number of the last Sunday of a 31-day month; day 0 is a Thursday. *)
Definition last_sunday (y m : Z) : Z :=
  let d := days_from_civil y m 31 in
  d - (d + 4) mod 7.

Definition british_summer_time (t : Z) : bool :=
  let y := dt_year (datetime_of_epoch t) in
  (last_sunday y 3 * 86400 + 3600 <=? t) && (t <? last_sunday y 10 * 86400 + 3600).

Definition utcoffset (zone : string) (t : Z) : result Z :=
  if decide (zone = "UTC") then Ok 0
  else if decide (zone = "Europe/London")
       then Ok (if british_summer_time t then 3600 else 0)
  else Raise (UnknownTimeZoneError zone).

(** Standard and summer offsets of a zone. *)
Definition zone_offsets (zone : string) : result (Z * Z) :=
  if decide (zone = "UTC") then Ok (0, 0)
  else if decide (zone = "Europe/London") then Ok (0, 3600)
  else Raise (UnknownTimeZoneError zone).

(** A local wall-clock time read in [zone]: standard time when the zone
    observes it at that instant (so also for a wall-clock time that occurs
    twice), else summer time, else (a wall-clock time that is skipped)
    standard time. *)
Definition when (s : string) (zone : string) : result Z :=
  match parse_naive s with
  | Some (dt, "") =>
      '(std, dst) ← zone_offsets zone;
      let wall := epoch_of_datetime dt in
      at_std ← utcoffset zone (wall - std);
      at_dst ← utcoffset zone (wall - dst);
      if at_std =? std then Ok (wall - std)
      else if at_dst =? dst then Ok (wall - dst)
      else Ok (wall - std)
  | _ => Raise (ParserError s)
  end.

#[global] Instance lib : MayaLib :=
  {| maya_parse := parse; maya_when := when; tz_utcoffset := utcoffset |}.

End iso_maya.

(** ** Definitions used in the statements *)

(** The three fields of the static tariff and the three of the Agile one. *)
Definition static_fields (c p s : float) : gmap string field_value :=
  {[ "consumption" := FNum c;
     "cost" := FNum (c * p)%float;
     "total_cost" := FNum (c * p + s / f48)%float ]}.

Definition dynamic_fields (c r a : float) : gmap string field_value :=
  {[ "agile_rate" := FNum r;
     "agile_cost" := FNum (r * c)%float;
     "agile_total_cost" := FNum (r * c + a / f48)%float ]}.

(** The clock time that [zone] shows at instant [t], as [HH:MM]. *)
Definition local_time_of_day `{MayaLib} (zone : string) (t : Z) : result string :=
  day ← maya_datetime (Some zone) t; Ok (strftime_HM day).

(** [rate_data] with another Agile schedule. *)
Definition with_agile_unit_rates (rates : list RatePoint) (rate_data : RateData)
    : RateData :=
  mkRateData (standing_charge rate_data) (unit_rate rate_data)
    (unit_rate_high rate_data) (unit_rate_low rate_data)
    (unit_rate_low_start rate_data) (unit_rate_low_end rate_data)
    (unit_rate_low_zone rate_data) (agile_standing_charge rate_data)
    (Some rates).

(** ** Sample tariffs and readings *)

Module samples.

(** A single-rate electricity tariff: no low zone, no Agile schedule. *)
Definition flat_electricity : RateData :=
  mkRateData (Some 24%float) None (Some 0.30%float) (Some 0%float)
    (Some "00:00") (Some "00:00") (Some None) (Some 0%float) (Some []).

(** A day/night tariff in London time, low from 00:30 to 04:30. *)
Definition night_electricity (rates : list RatePoint) : RateData :=
  mkRateData (Some 24%float) None (Some 0.30%float) (Some 0.05%float)
    (Some "00:30") (Some "04:30") (Some (Some "Europe/London"))
    (Some 12%float) (Some rates).

(** A day/night tariff whose low band runs over midnight. *)
Definition overnight_electricity : RateData :=
  mkRateData (Some 24%float) None (Some 0.30%float) (Some 0.05%float)
    (Some "23:30") (Some "05:30") (Some (Some "Europe/London"))
    (Some 0%float) (Some []).

Definition gas : RateData :=
  mkRateData (Some 18%float) (Some 0.03%float) None None None None None None None.

Definition reading : Consumption :=
  mkConsumption "2020-01-15T12:00:00Z" "2020-01-15T12:30:00Z" 0.5%float.

(** A summer reading, stamped in British Summer Time. *)
Definition summer_reading : Consumption :=
  mkConsumption "2020-06-01T00:30:00+01:00" "2020-06-01T01:00:00+01:00" 0.5%float.

(** An Agile schedule of two half hours, in UTC. *)
Definition schedule : list RatePoint :=
  [ mkRatePoint "2020-05-31T23:30:00Z" "2020-06-01T00:00:00Z" 0.1%float;
    mkRatePoint "2020-06-01T00:00:00Z" "2020-06-01T00:30:00Z" 0.2%float ].

(** The reading after [samples.summer_reading]. *)
Definition next_reading : Consumption :=
  mkConsumption "2020-06-01T01:00:00+01:00" "2020-06-01T01:30:00+01:00" 0.25%float.

(** The reading after that one; the schedule has no entry for it. *)
Definition late_reading : Consumption :=
  mkConsumption "2020-06-01T01:30:00+01:00" "2020-06-01T02:00:00+01:00" 1%float.

(** One half hour of the Agile schedule, stamped in British Summer Time. *)
Definition summer_schedule : list RatePoint :=
  [ mkRatePoint "2020-06-01T00:30:00+01:00" "2020-06-01T01:00:00+01:00" 0.1%float ].

(** The reading of the half hour before [summer_schedule]'s [valid_to],
    stamped in UTC. *)
Definition utc_reading : Consumption :=
  mkConsumption "2020-05-31T23:30:00Z" "2020-06-01T00:00:00Z" 0.5%float.

(** A reading of one hour. *)
Definition long_reading : Consumption :=
  mkConsumption "2020-05-31T23:00:00Z" "2020-06-01T00:00:00Z" 0.5%float.

(** A schedule entry that ends half an hour before it starts. *)
Definition backward_schedule : list RatePoint :=
  [ mkRatePoint "2020-06-01T00:30:00Z" "2020-06-01T00:00:00Z" 0.1%float ].

End samples.

(** The point of [samples.summer_reading] under the night tariff with
    [samples.schedule]: the reading ends at midnight UTC, where the
    schedule has the rate 0.1. *)
Definition summer_point : Point :=
  {| measurement := "electricity";
     tags := {[ "active_rate" := "unit_rate_low"; "time_of_day" := "00:00" ]};
     time := "2020-06-01T01:00:00+01:00";
     fields := dynamic_fields 0.5 0.1 12 ∪ static_fields 0.5 0.05 24 |}.

(** * The commands around the reconciler

    [retrieve_paginated_data] and [cmd] talk to the Octopus API, read the
    configuration and print to the console.  The world they act on holds
    the requests made so far, the clients created, what was printed and the
    batches written.  What the API answers, what the configuration file
    holds and how Python reads a number are parameters of the model. *)

Inductive io_exn : Type :=
  | CoreError (e : exn)
  | HTTPError (status : Z)
  | RequestException (msg : string)
  | JSONDecodeError
  | NoSectionError (section : string)
  | NoOptionError (name section : string)
  | InterpolationError (name section : string)
  | RecursionError.

(** [requests.get(url, params=args, auth=(key, ''))]. *)
Record Request : Type := mkRequest {
  req_url : option string;
  req_params : gmap string string;
  req_auth : string * string }.

(** The JSON object of a response: the keys [results] and [next] when
    present; [next] may hold [null]. *)
Record Page (A : Type) : Type := mkPage {
  page_results : option (list A);
  page_next : option (option string) }.
Arguments mkPage {A} _ _.
Arguments page_results {A} _.
Arguments page_next {A} _.

(** A response: its status code and its body read as JSON ([None]: the
    body is not JSON). *)
Record Response (A : Type) : Type := mkResponse {
  status_code : Z;
  json : option (Page A) }.
Arguments mkResponse {A} _ _.
Arguments status_code {A} _.
Arguments json {A} _.

(** [InfluxDBClient(host=..., port=..., username=..., password=...,
    database=...)]. *)
Record ClientSettings : Type := mkClientSettings {
  client_host : string;
  client_port : Z;
  client_username : string;
  client_password : string;
  client_database : string }.

Record World : Type := mkWorld {
  requested : list Request;
  clients : list ClientSettings;
  console : list string;
  influx : InfluxDBClient }.

(** A command: it ends with a value or an exception, in a new world. *)
Definition IO (B : Type) : Type := World -> (io_exn + B) * World.

#[global] Instance io_ret : MRet IO := fun B b w => (inr b, w).
#[global] Instance io_bind : MBind IO := fun B C f m w =>
  match m w with
  | (inr b, w') => f b w'
  | (inl e, w') => (inl e, w')
  end.

Definition io_raise {B} (e : io_exn) : IO B := fun w => (inl e, w).

(** A computation of the reconciliation core, run as a command. *)
Definition io_result {B} (r : result B) : IO B :=
  match r with
  | Ok b => mret b
  | Raise e => io_raise (CoreError e)
  end.

(** [click.echo(msg, nl=...)]. *)
Definition echo (msg : string) (nl : bool) : IO unit := fun w =>
  (inr tt,
   mkWorld (requested w) (clients w)
     (console w ++ [if nl then msg +:+ String "010" EmptyString else msg])
     (influx w)).

(** Creating the client. *)
Definition new_client (settings : ClientSettings) : IO unit := fun w =>
  (inr tt, mkWorld (requested w) (clients w ++ [settings]) (console w) (influx w)).

(** A call of one of the [store_series] functions on the database. *)
Definition io_store (store : InfluxDBClient -> result unit * InfluxDBClient)
    : IO unit := fun w =>
  let '(r, connection) := store (influx w) in
  io_result r (mkWorld (requested w) (clients w) (console w) connection).

(** Truth value of an optional string: [None] and the empty string are
    false. *)
Definition str_truthy (s : option string) : bool := zone_truthy s.

(** ** [retrieve_paginated_data], the same in both files

    [requests_get log request] is what the API answers to [request] after
    the requests of [log]; [query_page u] is
    [parse.parse_qs(parse.urlparse(u).query)] at the key [page], first
    value.  [depth] is the number of nested calls that Python still allows;
    when it is used up the call raises [RecursionError]. *)

Section retrieve.
Context {A : Type}.
Variable requests_get : list Request -> Request -> io_exn + Response A.
Variable query_page : string -> option string.

Definition http_get (request : Request) : IO (Response A) := fun w =>
  (requests_get (requested w) request,
   mkWorld (requested w ++ [request]) (clients w) (console w) (influx w)).

(** [response.raise_for_status()] *)
Definition raise_for_status (response : Response A) : IO unit :=
  if (400 <=? status_code response) && (status_code response <? 600)
  then io_raise (HTTPError (status_code response))
  else mret tt.

(** [response.json()] *)
Definition response_json (response : Response A) : IO (Page A) :=
  match json response with
  | Some data => mret data
  | None => io_raise JSONDecodeError
  end.

Definition request_args (from_date to_date : string) (page : option string)
    : gmap string string :=
  let args : gmap string string :=
    {[ "period_from" := from_date; "period_to" := to_date ]} in
  if str_truthy page then <["page" := default "" page]> args else args.

Fixpoint retrieve_paginated_data (depth : nat) (api_key : string)
    (url : option string) (from_date to_date : string) (page : option string)
    : IO (list A) :=
  match depth with
  | O => io_raise RecursionError
  | S depth' =>
      let args := request_args from_date to_date page in
      response ← http_get (mkRequest url args (api_key, ""));
      _ ← raise_for_status response;
      data ← response_json response;
      let results := default [] (page_results data) in
      next ← io_result (getitem "next" (page_next data));
      if str_truthy next then
        next_page ← io_result (getitem "page" (query_page (default "" next)));
        more ← retrieve_paginated_data depth' api_key url from_date to_date
                 (Some next_page);
        mret (results ++ more)
      else mret results
  end.

(** The pages that the API serves from [page] on, after the requests of
    [log], until a response without a following page. *)
Inductive serves (api_key : string) (url : option string)
    (from_date to_date : string)
    : list Request -> option string -> list (Page A) -> Prop :=
  | serves_last log page status data :
      requests_get log
        (mkRequest url (request_args from_date to_date page) (api_key, ""))
      = inr (mkResponse status (Some data)) ->
      (400 <=? status) && (status <? 600) = false ->
      (exists next, page_next data = Some next /\ str_truthy next = false) ->
      serves api_key url from_date to_date log page [data]
  | serves_more log page status data u next_page rest :
      requests_get log
        (mkRequest url (request_args from_date to_date page) (api_key, ""))
      = inr (mkResponse status (Some data)) ->
      (400 <=? status) && (status <? 600) = false ->
      page_next data = Some (Some u) ->
      str_truthy (Some u) = true ->
      query_page u = Some next_page ->
      serves api_key url from_date to_date
        (log ++ [mkRequest url (request_args from_date to_date page)
                   (api_key, "")])
        (Some next_page) rest ->
      serves api_key url from_date to_date log page (data :: rest).

(** The retrieval from [page] on, after the requests of [log], breaks with
    exception [e] at its [n]-th request: the request itself fails, or the
    status is an error, or the body is not JSON, or it has no [next] key,
    or [next] names no page; the pages before are served and name their
    successors. *)
Inductive breaks (api_key : string) (url : option string)
    (from_date to_date : string)
    : list Request -> option string -> nat -> io_exn -> Prop :=
  | breaks_request log page e :
      requests_get log
        (mkRequest url (request_args from_date to_date page) (api_key, ""))
      = inl e ->
      breaks api_key url from_date to_date log page 1 e
  | breaks_status log page response :
      requests_get log
        (mkRequest url (request_args from_date to_date page) (api_key, ""))
      = inr response ->
      (400 <=? status_code response) && (status_code response <? 600) = true ->
      breaks api_key url from_date to_date log page 1
        (HTTPError (status_code response))
  | breaks_body log page status :
      requests_get log
        (mkRequest url (request_args from_date to_date page) (api_key, ""))
      = inr (mkResponse status None) ->
      (400 <=? status) && (status <? 600) = false ->
      breaks api_key url from_date to_date log page 1 JSONDecodeError
  | breaks_next log page status data :
      requests_get log
        (mkRequest url (request_args from_date to_date page) (api_key, ""))
      = inr (mkResponse status (Some data)) ->
      (400 <=? status) && (status <? 600) = false ->
      page_next data = None ->
      breaks api_key url from_date to_date log page 1
        (CoreError (KeyError "next"))
  | breaks_page log page status data u :
      requests_get log
        (mkRequest url (request_args from_date to_date page) (api_key, ""))
      = inr (mkResponse status (Some data)) ->
      (400 <=? status) && (status <? 600) = false ->
      page_next data = Some (Some u) ->
      str_truthy (Some u) = true ->
      query_page u = None ->
      breaks api_key url from_date to_date log page 1
        (CoreError (KeyError "page"))
  | breaks_later log page status data u next_page n e :
      requests_get log
        (mkRequest url (request_args from_date to_date page) (api_key, ""))
      = inr (mkResponse status (Some data)) ->
      (400 <=? status) && (status <? 600) = false ->
      page_next data = Some (Some u) ->
      str_truthy (Some u) = true ->
      query_page u = Some next_page ->
      breaks api_key url from_date to_date
        (log ++ [mkRequest url (request_args from_date to_date page)
                   (api_key, "")])
        (Some next_page) n e ->
      breaks api_key url from_date to_date log page (S n) e.

End retrieve.

(** The world after some more requests. *)
Definition with_requests (w : World) (more : list Request) : World :=
  mkWorld (requested w ++ more) (clients w) (console w) (influx w).

(** ** Sample APIs *)

Module sample_api.

(** The [page] parameter of a URL whose query ends with it. *)
Definition page_of_query (u : string) : option string :=
  match String.index 0 "page=" u with
  | Some i =>
      let rest := String.substring (i + 5) (String.length u - (i + 5)) u in
      if decide (rest = "") then None else Some rest
  | None => None
  end.

Definition first_page : Page Consumption :=
  mkPage (Some [samples.reading])
    (Some (Some "https://api.octopus.energy/v1/consumption/?page=2")).

Definition second_page : Page Consumption :=
  mkPage (Some [samples.summer_reading; samples.next_reading]) (Some None).

(** An API of two pages. *)
Definition two_pages (log : list Request) (rq : Request)
    : io_exn + Response Consumption :=
  match req_params rq !! "page" with
  | None => inr (mkResponse 200 (Some first_page))
  | Some p => if decide (p = "2") then inr (mkResponse 200 (Some second_page))
              else inr (mkResponse 404 None)
  end.

(** An API whose second page is out of order. *)
Definition second_page_down (log : list Request) (rq : Request)
    : io_exn + Response Consumption :=
  match req_params rq !! "page" with
  | None => inr (mkResponse 200 (Some first_page))
  | Some _ => inr (mkResponse 503 None)
  end.

(** An API that always names a further page. *)
Definition endless (log : list Request) (rq : Request)
    : io_exn + Response Consumption :=
  inr (mkResponse 200 (Some first_page)).

Definition empty_world : World := mkWorld [] [] [] [].

End sample_api.

(** ** The configuration file, as [ConfigParser] presents it *)

(** What looking up an option of a section finds. *)
Inductive config_value : Type :=
  | Found (value : string)
  | MissingSection
  | MissingOption
  | BadInterpolation.

Section config.
Variable config : string -> string -> config_value.
Variable float_of_string : string -> option float.
Variable int_of_string : string -> option Z.

(** [config.get(section, name)] *)
Definition config_get (section name : string) : IO string :=
  match config section name with
  | Found v => mret v
  | MissingSection => io_raise (NoSectionError section)
  | MissingOption => io_raise (NoOptionError name section)
  | BadInterpolation => io_raise (InterpolationError name section)
  end.

(** [config.get(section, name, fallback=...)] and its converting
    variants: the fallback stands in for a missing section or option
    only. *)
Definition config_get_conv {B} (conv : string -> IO B)
    (section name : string) (fallback : B) : IO B :=
  match config section name with
  | Found v => conv v
  | MissingSection | MissingOption => mret fallback
  | BadInterpolation => io_raise (InterpolationError name section)
  end.

Definition config_get_str (section name fallback : string) : IO string :=
  config_get_conv mret section name fallback.

(** [config.get(section, name, fallback=None)] *)
Definition config_get_opt (section name : string) : IO (option string) :=
  config_get_conv (fun v => mret (Some v)) section name None.

Definition config_getfloat (section name : string) (fallback : float)
    : IO float :=
  config_get_conv
    (fun v => match float_of_string v with
              | Some x => mret x
              | None => io_raise (CoreError (ValueError v))
              end) section name fallback.

Definition config_getint (section name : string) (fallback : Z) : IO Z :=
  config_get_conv
    (fun v => match int_of_string v with
              | Some n => mret n
              | None => io_raise (CoreError (ValueError v))
              end) section name fallback.

(** The [InfluxDBClient(...)] call at the head of both commands. *)
Definition connect_influx : IO unit :=
  host ← config_get_str "influxdb" "host" "localhost";
  port ← config_getint "influxdb" "port" 8086;
  username ← config_get_str "influxdb" "user" "";
  password ← config_get_str "influxdb" "password" "";
  database ← config_get_str "influxdb" "database" "energy";
  new_client (mkClientSettings host port username password database).

End config.

(** ** [cmd] of [app/octopus_to_influxdb.py] *)

Module octopus_main.
Section cmd.
Context `{MayaLib}.
Variable config : string -> string -> config_value.
Variable float_of_string : string -> option float.
Variable int_of_string : string -> option Z.
Variable maya_when_zone : string -> option string -> result Z.
Variable get_consumption : list Request -> Request -> io_exn + Response Consumption.
Variable get_rates : list Request -> Request -> io_exn + Response RatePoint.
Variable query_page : string -> option string.
Variable depth : nat.

Definition cmd (from_date to_date : string) : IO unit :=
  _ ← connect_influx config int_of_string;
  api_key ← config_get config "octopus" "api_key";
  if bool_decide (api_key = "")
  then io_raise (CoreError (ClickException "No Octopus API key set"))
  else
  e_mpan ← config_get_opt config "electricity" "mpan";
  e_serial ← config_get_opt config "electricity" "serial_number";
  if negb (str_truthy e_mpan) || negb (str_truthy e_serial)
  then io_raise (CoreError (ClickException "No electricity meter identifiers"))
  else
  let e_url := "https://api.octopus.energy/v1/electricity-meter-points/"
               +:+ default "" e_mpan +:+ "/meters/" +:+ default "" e_serial
               +:+ "/consumption/" in
  agile_url ← config_get_opt config "electricity" "agile_rate_url";
  g_mpan ← config_get_opt config "gas" "mpan";
  g_serial ← config_get_opt config "gas" "serial_number";
  if negb (str_truthy g_mpan) || negb (str_truthy g_serial)
  then io_raise (CoreError (ClickException "No gas meter identifiers"))
  else
  let g_url := "https://api.octopus.energy/v1/gas-meter-points/"
               +:+ default "" g_mpan +:+ "/meters/" +:+ default "" g_serial
               +:+ "/consumption/" in
  timezone ← config_get_opt config "electricity" "unit_rate_low_zone";
  e_standing ← config_getfloat config float_of_string
                 "electricity" "standing_charge" 0%float;
  e_high ← config_getfloat config float_of_string
             "electricity" "unit_rate_high" 0%float;
  e_low ← config_getfloat config float_of_string
            "electricity" "unit_rate_low" 0%float;
  e_low_start ← config_get_str config "electricity" "unit_rate_low_start" "00:00";
  e_low_end ← config_get_str config "electricity" "unit_rate_low_end" "00:00";
  e_agile_standing ← config_getfloat config float_of_string
                       "electricity" "agile_standing_charge" 0%float;
  g_standing ← config_getfloat config float_of_string
                 "gas" "standing_charge" 0%float;
  g_rate ← config_getfloat config float_of_string "gas" "unit_rate" 0%float;
  let electricity_rate_data rates :=
    mkRateData (Some e_standing) None (Some e_high) (Some e_low)
      (Some e_low_start) (Some e_low_end) (Some timezone)
      (Some e_agile_standing) (Some rates) in
  let gas_rate_data :=
    mkRateData (Some g_standing) (Some g_rate) None None None None None None
      None in
  from_dt ← io_result (maya_when_zone from_date timezone);
  let from_iso := iso8601 from_dt in
  to_dt ← io_result (maya_when_zone to_date timezone);
  let to_iso := iso8601 to_dt in
  _ ← echo ("Retrieving electricity data for " +:+ from_iso +:+ " until "
            +:+ to_iso +:+ "...") false;
  e_consumption ← retrieve_paginated_data get_consumption query_page depth
                    api_key (Some e_url) from_iso to_iso None;
  _ ← echo (" " +:+ pretty (length e_consumption) +:+ " readings.") true;
  _ ← echo ("Retrieving Agile rates for " +:+ from_iso +:+ " until "
            +:+ to_iso +:+ "...") false;
  agile_unit_rates ← retrieve_paginated_data get_rates query_page depth
                       api_key agile_url from_iso to_iso None;
  _ ← echo (" " +:+ pretty (length agile_unit_rates) +:+ " rates.") true;
  _ ← io_store (fun connection =>
         octopus_to_influxdb.store_series "electricity"
           (electricity_rate_data agile_unit_rates) connection e_consumption);
  _ ← echo ("Retrieving gas data for " +:+ from_iso +:+ " until "
            +:+ to_iso +:+ "...") false;
  g_consumption ← retrieve_paginated_data get_consumption query_page depth
                    api_key (Some g_url) from_iso to_iso None;
  _ ← echo (" " +:+ pretty (length g_consumption) +:+ " readings.") true;
  io_store (fun connection =>
    octopus_to_influxdb.store_series "gas" gas_rate_data connection
      g_consumption).

End cmd.
End octopus_main.

(** ** [cmd] of [app/agile_to_influxdb.py] *)

Module agile_main.
Section cmd.
Context `{MayaLib}.
Variable config : string -> string -> config_value.
Variable int_of_string : string -> option Z.
Variable maya_when_zone : string -> option string -> result Z.
Variable get_rates : list Request -> Request -> io_exn + Response RatePoint.
Variable query_page : string -> option string.
Variable depth : nat.

Definition cmd (from_date to_date : string) : IO unit :=
  _ ← connect_influx config int_of_string;
  api_key ← config_get config "octopus" "api_key";
  if bool_decide (api_key = "")
  then io_raise (CoreError (ClickException "No Octopus API key set"))
  else
  agile_url ← config_get_opt config "electricity" "agile_rate_url";
  timezone ← config_get_opt config "electricity" "unit_rate_low_zone";
  from_dt ← io_result (maya_when_zone from_date timezone);
  let from_iso := iso8601 from_dt in
  to_dt ← io_result (maya_when_zone to_date timezone);
  let to_iso := iso8601 to_dt in
  _ ← echo ("Retrieving Agile rates for " +:+ from_iso +:+ " until "
            +:+ to_iso +:+ "...") false;
  agile_rates ← retrieve_paginated_data get_rates query_page depth
                  api_key agile_url from_iso to_iso None;
  _ ← echo (" " +:+ pretty (length agile_rates) +:+ " rates.") true;
  io_store (agile_to_influxdb.store_series "electricity" agile_rates).

End cmd.
End agile_main.

(** Commands that leave the world as it is, and commands that leave the
    database, or the requests, as they are. *)
Definition pure_io {B} (m : IO B) : Prop :=
  forall w r w', m w = (r, w') -> w' = w.

Definition keeps {B X} (proj : World -> X) (m : IO B) : Prop :=
  forall w r w', m w = (r, w') -> proj w' = proj w.

(** What a command may touch besides the list of clients. *)
Definition outside (w : World) : list Request * list string * InfluxDBClient :=
  (requested w, console w, influx w).

(** An option that the configuration does not set, or sets to the empty
    string. *)
Definition unset (config : string -> string -> config_value)
    (section name : string) : Prop :=
  forall v, config section name = Found v -> v = "".

(** A request with these credentials for this period. *)
Definition asks (api_key from_date to_date : string) (rq : Request) : Prop :=
  req_auth rq = (api_key, "") /\
  req_params rq !! "period_from" = Some from_date /\
  req_params rq !! "period_to" = Some to_date.

(** A command that makes at most [n] requests, all of them [P]. *)
Definition sends {B} (P : Request -> Prop) (n : nat) (m : IO B) : Prop :=
  forall w r w', m w = (r, w') ->
  exists requests,
    requested w' = requested w ++ requests /\
    (length requests <= n)%nat /\ Forall P requests.

(** A command that makes at most [n] requests, all with the same
    credentials and period. *)
Definition sends_alike {B} (n : nat) (m : IO B) : Prop :=
  forall w r w', m w = (r, w') ->
  exists requests api_key from_date to_date,
    requested w' = requested w ++ requests /\
    (length requests <= n)%nat /\
    Forall (asks api_key from_date to_date) requests.

(** ** A sample installation *)

Module sample_run.

(** A configuration read from its options; anything else is missing. *)
Definition config_of (options : gmap (string * string) string)
    (section name : string) : config_value :=
  match options !! (section, name) with
  | Some v => Found v
  | None => MissingOption
  end.

(** Key and meter identifiers only: every tariff option takes its
    fallback. *)
Definition options : gmap (string * string) string :=
  {[ ("octopus", "api_key") := "sk_live";
     ("electricity", "mpan") := "1200000000001";
     ("electricity", "serial_number") := "E1";
     ("electricity", "agile_rate_url") := "https://api.octopus.energy/v1/rates/";
     ("gas", "mpan") := "3200000001";
     ("gas", "serial_number") := "G1" ]}.

(** The same without the gas meter. *)
Definition electricity_only : gmap (string * string) string :=
  delete ("gas", "serial_number") (delete ("gas", "mpan") options).

(** No option of the samples holds a number. *)
Definition no_number {N} (v : string) : option N := None.

(** Dates are given as ISO-8601 texts, whatever the zone. *)
Definition when_iso (s : string) (zone : option string) : result Z :=
  iso_maya.parse s.

Definition electricity_url : string :=
  "https://api.octopus.energy/v1/electricity-meter-points/1200000000001/meters/E1/consumption/".

(** An API that has one page of electricity readings and is out of order
    for gas. *)
Definition gas_down (log : list Request) (rq : Request)
    : io_exn + Response Consumption :=
  if decide (req_url rq = Some electricity_url)
  then inr (mkResponse 200 (Some (mkPage (Some [samples.reading]) (Some None))))
  else inr (mkResponse 503 None).

(** An API with one page of Agile rates. *)
Definition rates (log : list Request) (rq : Request)
    : io_exn + Response RatePoint :=
  inr (mkResponse 200 (Some (mkPage (Some samples.schedule) (Some None)))).

(** The consumption command without the gas meter, with it, and the
    rate-only command, each in a fresh world. *)
Definition run_without_gas_meter : (io_exn + unit) * World :=
  octopus_main.cmd (config_of electricity_only) no_number no_number when_iso
    gas_down rates sample_api.page_of_query 5
    "2020-01-15T00:00:00Z" "2020-01-16T00:00:00Z" sample_api.empty_world.

Definition run_with_gas_down : (io_exn + unit) * World :=
  octopus_main.cmd (config_of options) no_number no_number when_iso
    gas_down rates sample_api.page_of_query 5
    "2020-01-15T00:00:00Z" "2020-01-16T00:00:00Z" sample_api.empty_world.

Definition run_rates_only : (io_exn + unit) * World :=
  agile_main.cmd (config_of options) no_number when_iso rates
    sample_api.page_of_query 5
    "2020-05-31T00:00:00Z" "2020-06-02T00:00:00Z" sample_api.empty_world.

End sample_run.

(** ** Generic facts: the result monad, comprehensions, dict comprehensions *)

Lemma bind_Ok {A B} (f : A -> result B) (m : result A) (b : B) :
  m ≫= f = Ok b -> exists a, m = Ok a /\ f a = Ok b.
Proof. destruct m as [a|e]; simpl; [eauto | discriminate]. Qed.

Ltac inv_bind H :=
  let x := fresh "x" in
  let Hx := fresh "Hx" in
  apply bind_Ok in H; destruct H as (x & Hx & H).

Lemma getitem_Ok {A} key (slot : option A) v :
  getitem key slot = Ok v <-> slot = Some v.
Proof. destruct slot; simpl; split; congruence. Qed.

Lemma comprehension_Forall2 {A B} (f : A -> result B) l ys :
  comprehension f l = Ok ys <-> Forall2 (fun x y => f x = Ok y) l ys.
Proof.
  revert ys. induction l as [|x l IH]; intros ys; simpl.
  - split.
    + intros [= <-]. constructor.
    + intros Hnil. inversion Hnil. reflexivity.
  - split.
    + intros Hc. inv_bind Hc. inv_bind Hc. injection Hc as <-.
      constructor; [assumption | by apply IH].
    + intros Hall. inversion Hall as [|? y ? ys' Hy Hys]; subst.
      rewrite Hy. simpl. apply IH in Hys. rewrite Hys. reflexivity.
Qed.

Lemma comprehension_length {A B} (f : A -> result B) l ys :
  comprehension f l = Ok ys -> length ys = length l.
Proof.
  intros Hc. apply comprehension_Forall2 in Hc.
  symmetry. eapply Forall2_length, Hc.
Qed.

Lemma comprehension_total {A B} (f : A -> result B) l :
  Forall (fun x => is_Ok (f x)) l -> is_Ok (comprehension f l).
Proof.
  induction 1 as [|x l [y Hy] _ [ys Hys]]; simpl.
  - by exists [].
  - exists (y :: ys). rewrite Hy. simpl. rewrite Hys. reflexivity.
Qed.


Lemma comprehension_app {A B} (f : A -> result B) l1 l2 ys1 ys2 :
  comprehension f l1 = Ok ys1 -> comprehension f l2 = Ok ys2 ->
  comprehension f (l1 ++ l2) = Ok (ys1 ++ ys2).
Proof.
  rewrite !comprehension_Forall2. apply Forall2_app.
Qed.

Lemma comprehension_ext {A A' B} (f : A -> result B) (g : A' -> result B) l l' :
  Forall2 (fun x x' => f x = g x') l l' ->
  comprehension f l = comprehension g l'.
Proof.
  induction 1 as [|x x' l l' Hx _ IH]; simpl; [reflexivity|].
  rewrite Hx, IH. reflexivity.
Qed.

Section dict_comprehension.
Context {A V : Type} (key : A -> string) (val : A -> V).

Lemma dict_comprehension_snoc l p :
  dict_comprehension key val (l ++ [p])
  = <[key p := val p]> (dict_comprehension key val l).
Proof. unfold dict_comprehension. rewrite fold_left_app. reflexivity. Qed.

(** A key of the dict is the key of some element, with that element's
    value. *)
Lemma dict_comprehension_Some l k v :
  dict_comprehension key val l !! k = Some v ->
  exists p, p ∈ l /\ key p = k /\ val p = v.
Proof.
  induction l as [|p l IH] using rev_ind.
  - unfold dict_comprehension. simpl. rewrite lookup_empty. discriminate.
  - rewrite dict_comprehension_snoc, lookup_insert.
    case_decide as Hk.
    + intros [= <-]. exists p. split; [|done].
      apply elem_of_app. right. by apply list_elem_of_singleton.
    + intros Hl. destruct (IH Hl) as (q & Hq & Hkq & Hvq).
      exists q. split; [|done]. apply elem_of_app. by left.
Qed.

(** Every element's key is a key of the dict. *)
Lemma dict_comprehension_is_Some l p :
  p ∈ l -> is_Some (dict_comprehension key val l !! key p).
Proof.
  induction l as [|q l IH] using rev_ind; [by intros ?%elem_of_nil|].
  rewrite dict_comprehension_snoc, lookup_insert.
  intros Hin. case_decide as Hk; [eauto|].
  apply IH. apply elem_of_app in Hin as [Hin|Hin]; [done|].
  apply list_elem_of_singleton in Hin. by subst.
Qed.

Lemma dict_comprehension_None l k :
  dict_comprehension key val l !! k = None <-> Forall (fun p => key p <> k) l.
Proof.
  split.
  - intros Hnone. apply Forall_forall. intros p Hp ?; subst k.
    destruct (dict_comprehension_is_Some l p Hp) as [v Hv]. congruence.
  - intros Hall. destruct (dict_comprehension key val l !! k) as [v|] eqn:Hl; [|done].
    apply dict_comprehension_Some in Hl as (p & Hp & Hk & _).
    rewrite Forall_forall in Hall. by destruct (Hall p Hp).
Qed.

(** When all elements with one key agree on the value, that value is the
    one stored. *)
Lemma dict_comprehension_agree l p :
  p ∈ l -> (forall q, q ∈ l -> key q = key p -> val q = val p) ->
  dict_comprehension key val l !! key p = Some (val p).
Proof.
  intros Hp Hagree.
  destruct (dict_comprehension_is_Some l p Hp) as [v Hv].
  rewrite Hv. f_equal.
  apply dict_comprehension_Some in Hv as (q & Hq & Hk & <-).
  by apply Hagree.
Qed.

End dict_comprehension.

(** ** The consumption reconciler: fields *)

Import octopus_to_influxdb.

Section fields.
Context `{MayaLib}.
Variables (series : string) (rate_data : RateData).

(** What a successful call of [fields_for_measurement] went through. *)
Lemma fields_for_measurement_Ok m flds :
  fields_for_measurement series rate_data m = Ok flds ->
  exists rate p s,
    active_rate_field series rate_data m = Ok rate /\
    rate_data_getitem rate_data rate = Ok p /\
    standing_charge rate_data = Some s /\
    ((agile_data rate_data = [] /\ flds = static_fields (consumption m) p s) \/
     (agile_data rate_data <> [] /\
      exists a t,
        agile_standing_charge rate_data = Some a /\
        maya_parse (interval_end m) = Ok t /\
        flds = dynamic_fields (consumption m)
                 (dict_get (agile_rates_to rate_data) (iso8601 t) p) a
               ∪ static_fields (consumption m) p s)).
Proof.
  unfold fields_for_measurement. intros Hf.
  inv_bind Hf. rename x into rate. inv_bind Hf. rename x into p.
  inv_bind Hf. rename x into s. apply getitem_Ok in Hx1.
  exists rate, p, s. repeat split; try assumption.
  destruct (agile_data rate_data) as [|r0 rs] eqn:Hagile.
  - left. split; [reflexivity|]. by injection Hf as <-.
  - right. split; [discriminate|].
    inv_bind Hf. rename x into a. apply getitem_Ok in Hx2.
    inv_bind Hf. rename x into t. inv_bind Hf.
    assert (x = p) as -> by congruence.
    exists a, t. repeat split; try assumption. by injection Hf as <-.
Qed.

Lemma fields_for_measurement_static m rate p s :
  active_rate_field series rate_data m = Ok rate ->
  rate_data_getitem rate_data rate = Ok p ->
  standing_charge rate_data = Some s ->
  agile_data rate_data = [] ->
  fields_for_measurement series rate_data m
  = Ok (static_fields (consumption m) p s).
Proof.
  intros Hrate Hp Hs Hagile. unfold fields_for_measurement.
  rewrite Hrate. simpl. rewrite Hp. simpl. rewrite Hs. simpl.
  rewrite Hagile. reflexivity.
Qed.

Lemma fields_for_measurement_dynamic m rate p s a t :
  active_rate_field series rate_data m = Ok rate ->
  rate_data_getitem rate_data rate = Ok p ->
  standing_charge rate_data = Some s ->
  agile_data rate_data <> [] ->
  agile_standing_charge rate_data = Some a ->
  maya_parse (interval_end m) = Ok t ->
  fields_for_measurement series rate_data m
  = Ok (dynamic_fields (consumption m)
          (dict_get (agile_rates_to rate_data) (iso8601 t) p) a
        ∪ static_fields (consumption m) p s).
Proof.
  intros Hrate Hp Hs Hagile Ha Ht. unfold fields_for_measurement.
  rewrite Hrate. simpl. rewrite Hp. simpl. rewrite Hs. simpl.
  destruct (agile_data rate_data); [done|].
  rewrite Ha. simpl. rewrite Ht. reflexivity.
Qed.

End fields.

Lemma static_fields_lookup c p s :
  static_fields c p s !! "consumption" = Some (FNum c) /\
  static_fields c p s !! "cost" = Some (FNum (c * p)%float) /\
  static_fields c p s !! "total_cost" = Some (FNum (c * p + s / f48)%float) /\
  static_fields c p s !! "agile_rate" = None /\
  static_fields c p s !! "agile_cost" = None /\
  static_fields c p s !! "agile_total_cost" = None.
Proof. unfold static_fields. repeat split; by simplify_map_eq. Qed.

Lemma dynamic_fields_lookup c r a :
  dynamic_fields c r a !! "agile_rate" = Some (FNum r) /\
  dynamic_fields c r a !! "agile_cost" = Some (FNum (r * c)%float) /\
  dynamic_fields c r a !! "agile_total_cost" = Some (FNum (r * c + a / f48)%float) /\
  dynamic_fields c r a !! "consumption" = None /\
  dynamic_fields c r a !! "cost" = None /\
  dynamic_fields c r a !! "total_cost" = None.
Proof. unfold dynamic_fields. repeat split; by simplify_map_eq. Qed.

(** ** The consumption reconciler: tags, points and the batch *)

Section points.
Context `{MayaLib}.
Variables (series : string) (rate_data : RateData).

Lemma tags_for_measurement_Ok m tgs :
  tags_for_measurement series rate_data m = Ok tgs <->
  exists t rate,
    maya_parse (interval_end m) = Ok t /\
    active_rate_field series rate_data m = Ok rate /\
    tgs = {[ "active_rate" := rate;
             "time_of_day" := strftime_HM (datetime_of_epoch t) ]}.
Proof.
  unfold tags_for_measurement. split.
  - intros Ht. inv_bind Ht. rename x into t. simpl in Ht.
    inv_bind Ht. rename x into rate. injection Ht as <-.
    by exists t, rate.
  - intros (t & rate & Ht & Hrate & ->).
    rewrite Ht. simpl. rewrite Hrate. reflexivity.
Qed.

Lemma measurement_point_Ok m pt :
  measurement_point series rate_data m = Ok pt <->
  exists tgs flds,
    tags_for_measurement series rate_data m = Ok tgs /\
    fields_for_measurement series rate_data m = Ok flds /\
    pt = mkPoint series tgs (interval_end m) flds.
Proof.
  unfold measurement_point. split.
  - intros Hp. inv_bind Hp. rename x into tgs.
    inv_bind Hp. rename x into flds. injection Hp as <-.
    by exists tgs, flds.
  - intros (tgs & flds & Ht & Hf & ->).
    rewrite Ht. simpl. rewrite Hf. reflexivity.
Qed.

(** [store_series] either writes one batch, the points of the intervals in
    order, or raises the exception of the first interval that fails and
    writes nothing. *)
Lemma store_series_Ok connection metrics batch :
  comprehension (measurement_point series rate_data) metrics = Ok batch ->
  store_series series rate_data connection metrics
  = (Ok tt, write_points connection batch).
Proof. intros Hc. unfold store_series. by rewrite Hc. Qed.

Lemma store_series_inv connection metrics r connection' :
  store_series series rate_data connection metrics = (r, connection') ->
  (exists batch,
     comprehension (measurement_point series rate_data) metrics = Ok batch /\
     r = Ok tt /\ connection' = write_points connection batch) \/
  (exists e,
     comprehension (measurement_point series rate_data) metrics = Raise e /\
     r = Raise e /\ connection' = connection).
Proof.
  unfold store_series.
  destruct (comprehension _ metrics) as [batch|e]; intros [= <- <-]; eauto.
Qed.

End points.

(** ** Cost fields *)

(** C1.  For every consumption interval that is reconciled, with
    consumption [c], resolved static unit price [p] and configured standing
    charge [s], the fields of the emitted point hold [cost = c * p] and
    [total_cost = cost + s / 48], as computed in binary64 arithmetic. *)
Theorem fields_cost_and_total_cost `{MayaLib} series rate_data m pt rate p s :
  measurement_point series rate_data m = Ok pt ->
  active_rate_field series rate_data m = Ok rate ->
  rate_data_getitem rate_data rate = Ok p ->
  standing_charge rate_data = Some s ->
  fields pt !! "cost" = Some (FNum (consumption m * p)%float) /\
  fields pt !! "total_cost" = Some (FNum (consumption m * p + s / 48)%float).
Proof.
  intros Hpt Hrate Hp Hs.
  apply measurement_point_Ok in Hpt as (tgs & flds & _ & Hf & ->). simpl.
  apply fields_for_measurement_Ok in Hf
    as (rate' & p' & s' & Hrate' & Hp' & Hs' & Hcases).
  assert (rate' = rate) as -> by congruence.
  assert (p' = p) as -> by congruence.
  assert (s' = s) as -> by congruence.
  destruct (static_fields_lookup (consumption m) p s) as (_ & Hc & Ht & _).
  destruct Hcases as [[_ ->] | (_ & a & t & _ & _ & ->)].
  - by split.
  - set (r := dict_get _ _ _).
    destruct (dynamic_fields_lookup (consumption m) r a) as (_ & _ & _ & _ & Hc' & Ht').
    rewrite !lookup_union_r by assumption. by split.
Qed.

(** The scenario of the specification: half a unit at 0.30 with a standing
    charge of 24 costs 0.15, and 0.65 in total. *)
Lemma fields_cost_and_total_cost_witness :
  exists pt,
    measurement_point "electricity" samples.flat_electricity samples.reading = Ok pt /\
    fields pt !! "cost" = Some (FNum 0.15%float) /\
    fields pt !! "total_cost" = Some (FNum 0.65%float).
Proof.
  eexists. split; [vm_compute; reflexivity|].
  apply (fields_cost_and_total_cost "electricity" samples.flat_electricity
           samples.reading _ "unit_rate_high" 0.30%float 24%float);
    vm_compute; reflexivity.
Defined.

(** C10.  Every emitted point holds [consumption], [cost] and [total_cost]
    of the static tariff, whether or not there is an Agile schedule; when
    the schedule is not empty the point also holds [agile_rate],
    [agile_cost] and [agile_total_cost], and the static fields keep their
    values; when it is empty the point holds the static fields only. *)
Theorem static_fields_kept_dynamic_fields_added `{MayaLib} series rate_data m pt :
  measurement_point series rate_data m = Ok pt ->
  exists rate p s,
    active_rate_field series rate_data m = Ok rate /\
    rate_data_getitem rate_data rate = Ok p /\
    standing_charge rate_data = Some s /\
    fields pt !! "consumption" = Some (FNum (consumption m)) /\
    fields pt !! "cost" = Some (FNum (consumption m * p)%float) /\
    fields pt !! "total_cost" = Some (FNum (consumption m * p + s / 48)%float) /\
    (agile_data rate_data = [] ->
       fields pt = static_fields (consumption m) p s /\
       fields pt !! "agile_rate" = None /\
       fields pt !! "agile_cost" = None /\
       fields pt !! "agile_total_cost" = None) /\
    (agile_data rate_data <> [] ->
       exists r a,
         agile_standing_charge rate_data = Some a /\
         fields pt !! "agile_rate" = Some (FNum r) /\
         fields pt !! "agile_cost" = Some (FNum (r * consumption m)%float) /\
         fields pt !! "agile_total_cost"
         = Some (FNum (r * consumption m + a / 48)%float)).
Proof.
  intros Hpt.
  apply measurement_point_Ok in Hpt as (tgs & flds & _ & Hf & ->). simpl.
  apply fields_for_measurement_Ok in Hf
    as (rate & p & s & Hrate & Hp & Hs & Hcases).
  exists rate, p, s. do 3 (split; [assumption|]).
  destruct (static_fields_lookup (consumption m) p s)
    as (Hc0 & Hc & Ht & Hn1 & Hn2 & Hn3).
  destruct Hcases as [[Hnil ->] | (Hcons & a & t & Ha & _ & ->)].
  - do 3 (split; [assumption|]). split; [done|]. intros Hne. by destruct Hne.
  - set (r := dict_get _ _ _).
    destruct (dynamic_fields_lookup (consumption m) r a)
      as (Hd1 & Hd2 & Hd3 & Hm0 & Hm1 & Hm2).
    rewrite !lookup_union_r by assumption.
    do 3 (split; [assumption|]). split; [done|].
    intros _. exists r, a. split; [assumption|].
    repeat split; by apply lookup_union_Some_l.
Qed.

Lemma static_fields_kept_dynamic_fields_added_witness :
  fields summer_point !! "consumption" = Some (FNum 0.5%float) /\
  is_Some (fields summer_point !! "agile_rate").
Proof.
  assert (measurement_point "electricity"
            (samples.night_electricity samples.schedule)
            samples.summer_reading = Ok summer_point) as Hemitted
    by (vm_compute; reflexivity).
  destruct (static_fields_kept_dynamic_fields_added "electricity"
              (samples.night_electricity samples.schedule)
              samples.summer_reading summer_point Hemitted)
    as (rate & p & s & _ & _ & _ & Hc & _ & _ & _ & Hdyn).
  split; [exact Hc|].
  destruct Hdyn as (r & a & _ & Hr & _); [discriminate|].
  exists (FNum r). exact Hr.
Defined.

(** ** One point per interval *)




(** ** Time stamp and tags *)

(** C6, as amended.  The point of an interval has the series as
    measurement, the interval's end as time, the resolved rate band as
    [active_rate] tag ([unit_rate] for gas), and as [time_of_day] tag the
    [HH:MM] of the interval's end on the UTC clock. *)
Theorem point_time_and_tags `{MayaLib} series rate_data m pt :
  measurement_point series rate_data m = Ok pt ->
  measurement pt = series /\
  time pt = interval_end m /\
  exists rate t,
    active_rate_field series rate_data m = Ok rate /\
    maya_parse (interval_end m) = Ok t /\
    tags pt !! "active_rate" = Some rate /\
    (series = "gas" -> rate = "unit_rate") /\
    maya_datetime None t = Ok (datetime_of_epoch t) /\
    tags pt !! "time_of_day" = Some (strftime_HM (datetime_of_epoch t)).
Proof.
  intros Hpt.
  apply measurement_point_Ok in Hpt as (tgs & flds & Htags & _ & ->). simpl.
  do 2 (split; [reflexivity|]).
  apply tags_for_measurement_Ok in Htags as (t & rate & Ht & Hrate & ->).
  exists rate, t. do 2 (split; [assumption|]).
  split; [by simplify_map_eq|]. split.
  - intros ->. unfold active_rate_field in Hrate.
    rewrite decide_True in Hrate by reflexivity. congruence.
  - split; [reflexivity | by simplify_map_eq].
Qed.

Lemma point_time_and_tags_witness :
  time summer_point = "2020-06-01T01:00:00+01:00" /\
  tags summer_point !! "time_of_day" = Some "00:00".
Proof.
  assert (measurement_point "electricity"
            (samples.night_electricity samples.schedule)
            samples.summer_reading = Ok summer_point) as Hemitted
    by (vm_compute; reflexivity).
  destruct (point_time_and_tags "electricity"
              (samples.night_electricity samples.schedule)
              samples.summer_reading summer_point Hemitted)
    as (_ & Htime & rate & t & _ & Ht & _ & _ & _ & Htag).
  split; [exact Htime|].
  vm_compute in Ht. injection Ht as <-. exact Htag.
Defined.

(** C6 as stated fails: a reading that ends at 01:00 British Summer Time
    is tagged [00:00], the UTC clock time, although the clock of the
    tariff's zone, like the time stamp itself, shows 01:00. *)
Lemma time_of_day_is_not_local :
  exists pt t,
    measurement_point "electricity" (samples.night_electricity samples.schedule)
      samples.summer_reading = Ok pt /\
    maya_parse (interval_end samples.summer_reading) = Ok t /\
    local_time_of_day "Europe/London" t = Ok "01:00" /\
    tags pt !! "time_of_day" = Some "00:00" /\
    Ok (default "" (tags pt !! "time_of_day"))
    <> local_time_of_day "Europe/London" t.
Proof.
  exists summer_point, 1590969600.
  split; [vm_compute; reflexivity|].
  split; [vm_compute; reflexivity|].
  split; [vm_compute; reflexivity|].
  split; [vm_compute; reflexivity|].
  vm_compute. discriminate.
Qed.

(** ** The Agile rate of an interval *)

Section agile_rate.
Context `{MayaLib}.
Variables (series : string) (rate_data : RateData).

(** The keys of [agile_rates_to] are the [valid_to] texts of the schedule,
    as received. *)
Lemma agile_rates_to_keys k :
  is_Some (agile_rates_to rate_data !! k) <->
  exists r, r ∈ agile_data rate_data /\ valid_to r = k.
Proof.
  unfold agile_rates_to. split.
  - intros [v Hv]. apply dict_comprehension_Some in Hv as (r & Hr & Hk & _).
    by exists r.
  - intros (r & Hr & <-). by apply dict_comprehension_is_Some.
Qed.

(** A lookup that misses yields the fallback. *)
Lemma agile_lookup_miss key fallback :
  Forall (fun r => valid_to r <> key) (agile_data rate_data) ->
  dict_get (agile_rates_to rate_data) key fallback = fallback.
Proof.
  intros Hmiss. unfold dict_get, agile_rates_to.
  apply (dict_comprehension_None valid_to value_inc_vat) in Hmiss.
  by rewrite Hmiss.
Qed.

(** The point of an interval under a non-empty schedule. *)
Lemma measurement_point_dynamic m rate p s a t :
  active_rate_field series rate_data m = Ok rate ->
  rate_data_getitem rate_data rate = Ok p ->
  standing_charge rate_data = Some s ->
  agile_data rate_data <> [] ->
  agile_standing_charge rate_data = Some a ->
  maya_parse (interval_end m) = Ok t ->
  measurement_point series rate_data m
  = Ok (mkPoint series
          {[ "active_rate" := rate;
             "time_of_day" := strftime_HM (datetime_of_epoch t) ]}
          (interval_end m)
          (dynamic_fields (consumption m)
             (dict_get (agile_rates_to rate_data) (iso8601 t) p) a
           ∪ static_fields (consumption m) p s)).
Proof.
  intros Hrate Hp Hs Hagile Ha Ht.
  apply measurement_point_Ok. eexists _, _. split; [|split; [|reflexivity]].
  - apply tags_for_measurement_Ok. by exists t, rate.
  - by eapply fields_for_measurement_dynamic.
Qed.

End agile_rate.

(** C4.  With a non-empty Agile schedule that has no entry whose [valid_to]
    is the end instant of an interval, the interval is reconciled without
    an error and its Agile rate is the static unit price resolved for it;
    the points of the other intervals of the batch are those they get on
    their own. *)
Theorem dynamic_rate_miss_falls_back `{MayaLib} series rate_data m rate p s a t :
  agile_data rate_data <> [] ->
  active_rate_field series rate_data m = Ok rate ->
  rate_data_getitem rate_data rate = Ok p ->
  standing_charge rate_data = Some s ->
  agile_standing_charge rate_data = Some a ->
  maya_parse (interval_end m) = Ok t ->
  maya_parse (iso8601 t) = Ok t ->
  Forall (fun r => maya_parse (valid_to r) <> Ok t) (agile_data rate_data) ->
  exists pt,
    measurement_point series rate_data m = Ok pt /\
    fields pt !! "agile_rate" = Some (FNum p) /\
    fields pt !! "agile_cost" = Some (FNum (p * consumption m)%float) /\
    fields pt !! "agile_total_cost"
    = Some (FNum (p * consumption m + a / 48)%float) /\
    forall connection before after pts_before pts_after,
      comprehension (measurement_point series rate_data) before = Ok pts_before ->
      comprehension (measurement_point series rate_data) after = Ok pts_after ->
      store_series series rate_data connection (before ++ m :: after)
      = (Ok tt, write_points connection (pts_before ++ pt :: pts_after)).
Proof.
  intros Hagile Hrate Hp Hs Ha Ht Hcanon Hmiss.
  assert (Forall (fun r => valid_to r <> iso8601 t) (agile_data rate_data))
    as Htext.
  { eapply Forall_impl; [exact Hmiss|]. intros r Hr Heq. apply Hr.
    by rewrite Heq. }
  pose proof (measurement_point_dynamic series rate_data m rate p s a t
                Hrate Hp Hs Hagile Ha Ht) as Hpt.
  rewrite (agile_lookup_miss rate_data _ p Htext) in Hpt.
  eexists. split; [exact Hpt|]. simpl.
  destruct (dynamic_fields_lookup (consumption m) p a) as (Hd1 & Hd2 & Hd3 & _).
  do 3 (split; [by apply lookup_union_Some_l|]).
  intros connection before after pts_before pts_after Hbefore Hafter.
  apply store_series_Ok.
  apply comprehension_app; [assumption|].
  simpl. rewrite Hpt. simpl. rewrite Hafter. reflexivity.
Qed.

Lemma dynamic_rate_miss_falls_back_witness :
  exists pt,
    measurement_point "electricity" (samples.night_electricity samples.schedule)
      samples.late_reading = Ok pt /\
    fields pt !! "agile_rate" = Some (FNum 0.05%float).
Proof.
  destruct (dynamic_rate_miss_falls_back "electricity"
              (samples.night_electricity samples.schedule)
              samples.late_reading "unit_rate_low" 0.05%float 24%float 12%float
              1590973200)
    as (pt & Hpt & Hrate & _).
  - discriminate.
  - vm_compute; reflexivity.
  - vm_compute; reflexivity.
  - vm_compute; reflexivity.
  - vm_compute; reflexivity.
  - vm_compute; reflexivity.
  - vm_compute; reflexivity.
  - repeat constructor; vm_compute; discriminate.
  - exists pt. split; [exact Hpt | exact Hrate].
Defined.

(** ** Boundary keys: what is normalised and what is not *)

Lemma active_rate_field_start `{MayaLib} series rate_data m m' :
  interval_start m' = interval_start m ->
  active_rate_field series rate_data m' = active_rate_field series rate_data m.
Proof. intros Hstart. unfold active_rate_field. by rewrite Hstart. Qed.

Lemma fields_for_measurement_ext `{MayaLib} series rate_data m m' :
  consumption m' = consumption m ->
  active_rate_field series rate_data m' = active_rate_field series rate_data m ->
  maya_parse (interval_end m') = maya_parse (interval_end m) ->
  fields_for_measurement series rate_data m'
  = fields_for_measurement series rate_data m.
Proof.
  intros Hc Hrate Hend. unfold fields_for_measurement.
  by rewrite Hc, Hrate, Hend.
Qed.

(** C2 as stated fails: the schedule entry and the reading end at the same
    instant, written [2020-06-01T01:00:00+01:00] in the schedule and
    [2020-06-01T00:00:00Z] in the reading; the entry is indexed under its
    own text, and the lookup for the reading does not find it: the Agile
    rate of the point is the static low rate 0.05, not the entry's 0.1. *)
Lemma boundary_lookup_misses_other_representation :
  let rate_data := samples.night_electricity samples.summer_schedule in
  maya_parse "2020-06-01T01:00:00+01:00" = Ok 1590969600 /\
  maya_parse (interval_end samples.utc_reading) = Ok 1590969600 /\
  agile_rates_to rate_data !! "2020-06-01T01:00:00+01:00" = Some 0.1%float /\
  exists flds,
    fields_for_measurement "electricity" rate_data samples.utc_reading = Ok flds /\
    flds !! "agile_rate" = Some (FNum 0.05%float) /\
    flds !! "agile_rate" <> Some (FNum 0.1%float).
Proof.
  intros rate_data. do 3 (split; [vm_compute; reflexivity|]).
  exists (dynamic_fields 0.5 0.05 12 ∪ static_fields 0.5 0.05 24).
  split; [vm_compute; reflexivity|].
  assert ((dynamic_fields 0.5 0.05 12 ∪ static_fields 0.5 0.05 24)
          !! "agile_rate" = Some (FNum 0.05%float)) as Hrate
    by (vm_compute; reflexivity).
  split; [exact Hrate|]. rewrite Hrate. discriminate.
Qed.

(** C2, as amended.  Only the key of a lookup is normalised.  The index is
    keyed by the [valid_to] texts of the schedule as received (and the
    rate-only index by the [valid_from] texts); the Agile rate of an
    interval is looked up under the ISO-8601 UTC rendering of the interval's
    end, so an entry is found exactly when its own [valid_to] text is that
    rendering, and two texts of one instant, used as an interval's end,
    find the same entry. *)
Theorem boundary_lookup_normalises_query_only `{MayaLib}
    series rate_data m rate p s a t :
  agile_data rate_data <> [] ->
  active_rate_field series rate_data m = Ok rate ->
  rate_data_getitem rate_data rate = Ok p ->
  standing_charge rate_data = Some s ->
  agile_standing_charge rate_data = Some a ->
  maya_parse (interval_end m) = Ok t ->
  (exists flds,
     fields_for_measurement series rate_data m = Ok flds /\
     flds !! "agile_rate"
     = Some (FNum (dict_get (agile_rates_to rate_data) (iso8601 t) p))) /\
  (forall k, is_Some (agile_rates_to rate_data !! k) <->
             exists r, r ∈ agile_data rate_data /\ valid_to r = k) /\
  (forall v, agile_rates_to rate_data !! iso8601 t = Some v ->
             exists r, r ∈ agile_data rate_data /\
                       valid_to r = iso8601 t /\ value_inc_vat r = v) /\
  (Forall (fun r => valid_to r <> iso8601 t) (agile_data rate_data) ->
   dict_get (agile_rates_to rate_data) (iso8601 t) p = p) /\
  (forall m',
     interval_start m' = interval_start m ->
     consumption m' = consumption m ->
     maya_parse (interval_end m') = Ok t ->
     fields_for_measurement series rate_data m'
     = fields_for_measurement series rate_data m) /\
  (forall rates k,
     is_Some (agile_to_influxdb.agile_rates_with_from_dates rates !! k) <->
     exists r, r ∈ rates /\ valid_from r = k).
Proof.
  intros Hagile Hrate Hp Hs Ha Ht. split; [|split; [|split; [|split; [|split]]]].
  - eexists. split; [by eapply fields_for_measurement_dynamic|].
    apply lookup_union_Some_l. apply dynamic_fields_lookup.
  - apply agile_rates_to_keys.
  - intros v Hv. unfold agile_rates_to in Hv.
    apply dict_comprehension_Some in Hv as (r & Hr & Hk & Hval). by exists r.
  - apply agile_lookup_miss.
  - intros m' Hstart Hc Hend. apply fields_for_measurement_ext.
    + assumption.
    + by apply active_rate_field_start.
    + congruence.
  - intros rates k. unfold agile_to_influxdb.agile_rates_with_from_dates. split.
    + intros [v Hv]. apply dict_comprehension_Some in Hv as (r & Hr & Hk & _).
      by exists r.
    + intros (r & Hr & <-). by apply dict_comprehension_is_Some.
Qed.

Lemma boundary_lookup_normalises_query_only_witness :
  exists flds,
    fields_for_measurement "electricity"
      (samples.night_electricity samples.schedule) samples.summer_reading
    = Ok flds /\
    flds !! "agile_rate"
    = Some (FNum (dict_get
                    (agile_rates_to (samples.night_electricity samples.schedule))
                    "2020-06-01T00:00:00Z" 0.05%float)).
Proof.
  destruct (boundary_lookup_normalises_query_only "electricity"
              (samples.night_electricity samples.schedule)
              samples.summer_reading "unit_rate_low" 0.05%float 24%float 12%float
              1590969600)
    as (Hfields & _).
  - discriminate.
  - vm_compute; reflexivity.
  - vm_compute; reflexivity.
  - vm_compute; reflexivity.
  - vm_compute; reflexivity.
  - vm_compute; reflexivity.
  - exact Hfields.
Defined.

(** ** The time-of-use resolver *)

Lemma interval_contains_spec start end_ dt :
  interval_contains (mkInterval start end_) dt = true <-> start <= dt < end_.
Proof. unfold interval_contains. simpl. lia. Qed.

Section resolver.
Context `{MayaLib}.
Variables (series : string) (rate_data : RateData).

Lemma active_rate_field_gas m :
  series = "gas" -> active_rate_field series rate_data m = Ok "unit_rate".
Proof. intros ->. reflexivity. Qed.

(** Without a low zone the tariff has one band. *)
Lemma active_rate_field_no_zone m zone :
  series <> "gas" ->
  unit_rate_low_zone rate_data = Some zone ->
  zone_truthy zone = false ->
  active_rate_field series rate_data m = Ok "unit_rate_high".
Proof.
  intros Hseries Hzone Hfalse. unfold active_rate_field.
  rewrite decide_False by assumption.
  rewrite Hzone. simpl. by rewrite Hfalse.
Qed.

(** With a low zone, the resolver gets as far as building the band. *)
Lemma active_rate_field_band m zone low_start_str low_end_str t day low_start low_end :
  series <> "gas" ->
  unit_rate_low_zone rate_data = Some (Some zone) ->
  zone <> "" ->
  unit_rate_low_start rate_data = Some low_start_str ->
  unit_rate_low_end rate_data = Some low_end_str ->
  maya_parse (interval_start m) = Ok t ->
  maya_datetime (Some zone) t = Ok day ->
  maya_when (strftime_Ymd day +:+ "T" +:+ low_start_str) zone = Ok low_start ->
  maya_when (strftime_Ymd day +:+ "T" +:+ low_end_str) zone = Ok low_end ->
  active_rate_field series rate_data m
  = low_period ← new_MayaInterval low_start low_end;
    Ok (if interval_contains low_period t
        then "unit_rate_low" else "unit_rate_high").
Proof.
  intros Hseries Hzone Hne Hls Hle Ht Hday Hstart Hend.
  unfold active_rate_field.
  rewrite decide_False by assumption.
  rewrite Hzone. cbn [getitem mbind result_bind zone_truthy negb default from_option id].
  rewrite bool_decide_false by assumption.
  cbn [negb]. rewrite Hls, Hle.
  cbn [getitem mbind result_bind].
  rewrite Ht. cbn [mbind result_bind]. rewrite Hday. cbn [mbind result_bind].
  rewrite Hstart. cbn [mbind result_bind]. rewrite Hend. reflexivity.
Qed.

End resolver.

(** C3, as amended.  For electricity without a low zone ([None] or the
    empty string) every interval is classified as high.  With [low_zone],
    [low_start] and [low_end] configured, the band instants are the
    configured clock times on the calendar day, in [low_zone], of the
    interval's start.  When the band's start is not after its end, the
    interval is low exactly when its start instant lies in the half-open
    band (start inclusive, end exclusive) and high otherwise; when the
    band's start is after its end, the resolver raises instead of
    classifying. *)
Theorem low_band_is_half_open `{MayaLib} series rate_data m :
  series <> "gas" ->
  (forall zone,
     unit_rate_low_zone rate_data = Some zone ->
     zone = None \/ zone = Some "" ->
     active_rate_field series rate_data m = Ok "unit_rate_high") /\
  (forall zone low_start_str low_end_str t day low_start low_end,
     unit_rate_low_zone rate_data = Some (Some zone) ->
     zone <> "" ->
     unit_rate_low_start rate_data = Some low_start_str ->
     unit_rate_low_end rate_data = Some low_end_str ->
     maya_parse (interval_start m) = Ok t ->
     maya_datetime (Some zone) t = Ok day ->
     maya_when (strftime_Ymd day +:+ "T" +:+ low_start_str) zone
     = Ok low_start ->
     maya_when (strftime_Ymd day +:+ "T" +:+ low_end_str) zone = Ok low_end ->
     (low_start <= low_end ->
        (active_rate_field series rate_data m = Ok "unit_rate_low"
         <-> low_start <= t < low_end) /\
        (active_rate_field series rate_data m = Ok "unit_rate_high"
         <-> ~ (low_start <= t < low_end))) /\
     (low_end < low_start ->
        active_rate_field series rate_data m
        = Raise (ValueError "MayaInterval cannot end before it starts"))).
Proof.
  intros Hseries. split.
  - intros zone Hzone Hunset.
    apply (active_rate_field_no_zone series rate_data m zone Hseries Hzone).
    by destruct Hunset as [-> | ->].
  - intros zone low_start_str low_end_str t day low_start low_end
      Hzone Hne Hls Hle Ht Hday Hstart Hend.
    rewrite (active_rate_field_band series rate_data m zone low_start_str
               low_end_str t day low_start low_end) by assumption.
    unfold new_MayaInterval. split.
    + intros Hordered.
      destruct (Z.gtb_spec low_start low_end) as [Hgt|_]; [lia|].
      cbn [mbind result_bind].
      pose proof (interval_contains_spec low_start low_end t) as Hin.
      destruct (interval_contains (mkInterval low_start low_end) t).
      * split; split; try done.
        -- intros _. by apply Hin.
        -- intros Hout. destruct Hout. by apply Hin.
      * split; split; try done.
        -- intros Hband. apply Hin in Hband. discriminate.
        -- intros _ Hband. apply Hin in Hband. discriminate.
    + intros Hinverted.
      destruct (Z.gtb_spec low_start low_end) as [_|Hle']; [reflexivity | lia].
Qed.

(** The scenario of the specification: on the day the clocks go forward, a
    reading that starts at 00:30 UTC lies in a band from 00:30 to 04:30
    London time; and under the single-rate tariff a reading is high. *)
Lemma low_band_is_half_open_witness :
  active_rate_field "electricity" (samples.night_electricity [])
    (mkConsumption "2023-03-26T00:30:00Z" "2023-03-26T01:00:00Z" 0.5%float)
  = Ok "unit_rate_low" /\
  active_rate_field "electricity" samples.flat_electricity samples.reading
  = Ok "unit_rate_high".
Proof.
  split.
  - destruct (low_band_is_half_open "electricity" (samples.night_electricity [])
                (mkConsumption "2023-03-26T00:30:00Z" "2023-03-26T01:00:00Z"
                   0.5%float))
      as (_ & Hband); [discriminate|].
    destruct (Hband "Europe/London" "00:30" "04:30" 1679790600
                (mkDateTime 2023 3 26 0 30 0) 1679790600 1679801400)
      as (Hordered & _).
    + reflexivity.
    + discriminate.
    + reflexivity.
    + reflexivity.
    + vm_compute; reflexivity.
    + vm_compute; reflexivity.
    + vm_compute; reflexivity.
    + vm_compute; reflexivity.
    + apply Hordered; lia.
  - destruct (low_band_is_half_open "electricity" samples.flat_electricity
                samples.reading) as (Hflat & _); [discriminate|].
    apply (Hflat None); [reflexivity | by left].
Defined.

(** C3 as stated fails: with a low band from 23:30 to 05:30 the band
    instants of a day are in the wrong order, no instant lies between them,
    and a reading at noon is not classified as high: the resolver raises. *)
Lemma inverted_low_band_raises :
  let m := samples.reading in
  exists t low_start low_end,
    maya_parse (interval_start m) = Ok t /\
    maya_when "2020-01-15T23:30" "Europe/London" = Ok low_start /\
    maya_when "2020-01-15T05:30" "Europe/London" = Ok low_end /\
    ~ (low_start <= t < low_end) /\
    active_rate_field "electricity" samples.overnight_electricity m
    = Raise (ValueError "MayaInterval cannot end before it starts") /\
    active_rate_field "electricity" samples.overnight_electricity m
    <> Ok "unit_rate_high".
Proof.
  intros m. exists 1579089600, 1579131000, 1579066200.
  do 3 (split; [vm_compute; reflexivity|]).
  split; [lia|].
  assert (active_rate_field "electricity" samples.overnight_electricity m
          = Raise (ValueError "MayaInterval cannot end before it starts")) as Hraise
    by (vm_compute; reflexivity).
  split; [exact Hraise|]. rewrite Hraise. discriminate.
Qed.

(** ** Rate-only mode *)

Section rate_only.
Context `{MayaLib}.
Variables (series : string) (agile_rates : list RatePoint).

Lemma rate_only_fields_Ok m from_dt to_dt :
  maya_parse (valid_from m) = Ok from_dt ->
  maya_parse (valid_to m) = Ok to_dt ->
  agile_to_influxdb.measurement_point series agile_rates m
  = Ok (mkPoint series ∅ (valid_to m)
          {[ "agile_rate_prev" :=
               agile_to_influxdb.field_of_get
                 (agile_to_influxdb.agile_rates_with_from_dates agile_rates)
                 (iso8601 from_dt);
             "agile_rate_next" :=
               agile_to_influxdb.field_of_get
                 (agile_to_influxdb.agile_rates_with_from_dates agile_rates)
                 (iso8601 to_dt) ]}).
Proof.
  intros Hfrom Hto.
  unfold agile_to_influxdb.measurement_point, agile_to_influxdb.fields_for_measurement.
  rewrite Hfrom. cbn [mbind result_bind]. rewrite Hto. reflexivity.
Qed.

(** The rate stored under a [valid_from] text on which the schedule
    agrees. *)
Lemma rate_only_index_agree r :
  r ∈ agile_rates ->
  (forall q, q ∈ agile_rates -> valid_from q = valid_from r ->
             value_inc_vat q = value_inc_vat r) ->
  agile_to_influxdb.field_of_get
    (agile_to_influxdb.agile_rates_with_from_dates agile_rates) (valid_from r)
  = FNum (value_inc_vat r).
Proof.
  intros Hr Hagree.
  unfold agile_to_influxdb.field_of_get, agile_to_influxdb.agile_rates_with_from_dates.
  by rewrite (dict_comprehension_agree valid_from value_inc_vat agile_rates r).
Qed.

Lemma rate_only_store_series_inv connection connection' :
  agile_to_influxdb.store_series series agile_rates connection = (Ok tt, connection') ->
  exists batch,
    connection' = write_points connection batch /\
    Forall2 (fun q pt => agile_to_influxdb.measurement_point series agile_rates q = Ok pt)
      agile_rates batch.
Proof.
  unfold agile_to_influxdb.store_series.
  destruct agile_rates as [|r0 rs] eqn:Hrates; [discriminate|].
  rewrite <- Hrates.
  destruct (comprehension _ agile_rates) as [batch|e] eqn:Hbatch; [|discriminate].
  intros [= <-]. exists batch. split; [reflexivity|].
  by apply comprehension_Forall2.
Qed.

End rate_only.

(** C7.  Rate-only reconciliation of an empty schedule raises an error to
    the caller and leaves the storage as it was: nothing is written.  More
    generally a call that raises has written nothing, and a call that
    writes was given a schedule that is not empty. *)
Theorem empty_schedule_is_rejected `{MayaLib} series connection :
  agile_to_influxdb.store_series series [] connection
  = (Raise (ClickException "No Agile rate data to store"), connection) /\
  (forall agile_rates e connection',
     agile_to_influxdb.store_series series agile_rates connection
     = (Raise e, connection') ->
     connection' = connection) /\
  (forall agile_rates connection',
     agile_to_influxdb.store_series series agile_rates connection
     = (Ok tt, connection') ->
     agile_rates <> [] /\
     exists batch, connection' = write_points connection batch /\
                   length batch = length agile_rates).
Proof.
  split; [reflexivity|]. split.
  - intros agile_rates e connection'. unfold agile_to_influxdb.store_series.
    destruct agile_rates as [|r0 rs]; [by intros [= _ <-]|].
    destruct (comprehension _ (r0 :: rs)) as [batch|e'].
    + discriminate.
    + by intros [= _ <-].
  - intros agile_rates connection' Hstore. split.
    + intros ->. discriminate.
    + apply rate_only_store_series_inv in Hstore as (batch & -> & Hall).
      exists batch. split; [reflexivity|].
      symmetry. eapply Forall2_length, Hall.
Qed.

Lemma empty_schedule_is_rejected_witness :
  samples.schedule <> [] /\
  agile_to_influxdb.store_series "electricity" [] []
  = (Raise (ClickException "No Agile rate data to store"), []).
Proof.
  destruct (empty_schedule_is_rejected "electricity" [])
    as (Hempty & _ & Hwritten).
  split; [|exact Hempty].
  apply (Hwritten samples.schedule
           [[ mkPoint "electricity" ∅ "2020-06-01T00:00:00Z"
                {[ "agile_rate_prev" := FNum 0.1%float;
                   "agile_rate_next" := FNum 0.2%float ]};
              mkPoint "electricity" ∅ "2020-06-01T00:30:00Z"
                {[ "agile_rate_prev" := FNum 0.2%float;
                   "agile_rate_next" := FNone ]} ]]).
  vm_compute. reflexivity.
Defined.

(** C5 as stated fails: the only entry of the schedule is stamped in
    British Summer Time; the point emitted at its [valid_to] carries no rate
    for the preceding half hour, because the index holds the entry under its
    own text and is asked for the UTC rendering. *)
Lemma rate_only_prev_missing :
  let r := mkRatePoint "2020-06-01T00:30:00+01:00" "2020-06-01T01:00:00+01:00"
             0.1%float in
  r ∈ samples.summer_schedule /\
  exists pt,
    agile_to_influxdb.store_series "electricity" samples.summer_schedule []
    = (Ok tt, [[pt]]) /\
    time pt = valid_to r /\
    fields pt !! "agile_rate_prev" = Some FNone /\
    fields pt !! "agile_rate_prev" <> Some (FNum (value_inc_vat r)).
Proof.
  intros r. split; [by apply list_elem_of_singleton|].
  exists (mkPoint "electricity" ∅ "2020-06-01T01:00:00+01:00"
            {[ "agile_rate_prev" := FNone; "agile_rate_next" := FNone ]}).
  split; [vm_compute; reflexivity|]. split; [reflexivity|].
  assert (({[ "agile_rate_prev" := FNone; "agile_rate_next" := FNone ]}
            : gmap string field_value) !! "agile_rate_prev" = Some FNone) as Hprev
    by (vm_compute; reflexivity).
  split; [exact Hprev|]. cbn [fields]. rewrite Hprev. discriminate.
Qed.

(** C5, as amended.  In rate-only mode, for a schedule entry
    [{valid_from = T0, valid_to = T1, value = V}] whose [valid_from] text is
    the ISO-8601 UTC rendering of its instant, and with which every entry of
    the same [valid_from] text agrees on the value: the point emitted for
    the entry, at time [T1], has [agile_rate_prev = V], and the point
    emitted for an entry that ends at the instant [T0] has
    [agile_rate_next = V].  The batch written holds these points. *)
Theorem rate_only_prev_and_next `{MayaLib} series agile_rates r t0 :
  r ∈ agile_rates ->
  maya_parse (valid_from r) = Ok t0 ->
  valid_from r = iso8601 t0 ->
  (forall q, q ∈ agile_rates -> valid_from q = valid_from r ->
             value_inc_vat q = value_inc_vat r) ->
  (forall t1,
     maya_parse (valid_to r) = Ok t1 ->
     exists pt,
       agile_to_influxdb.measurement_point series agile_rates r = Ok pt /\
       time pt = valid_to r /\
       fields pt !! "agile_rate_prev" = Some (FNum (value_inc_vat r))) /\
  (forall r' t',
     maya_parse (valid_from r') = Ok t' ->
     maya_parse (valid_to r') = Ok t0 ->
     exists pt',
       agile_to_influxdb.measurement_point series agile_rates r' = Ok pt' /\
       time pt' = valid_to r' /\
       fields pt' !! "agile_rate_next" = Some (FNum (value_inc_vat r))) /\
  (forall connection connection',
     agile_to_influxdb.store_series series agile_rates connection
     = (Ok tt, connection') ->
     exists batch,
       connection' = write_points connection batch /\
       Forall2 (fun q pt =>
                  agile_to_influxdb.measurement_point series agile_rates q = Ok pt)
         agile_rates batch).
Proof.
  intros Hr Hfrom Hcanon Hagree.
  pose proof (rate_only_index_agree agile_rates r Hr Hagree) as Hindex.
  rewrite Hcanon in Hindex.
  split; [|split].
  - intros t1 Hto. eexists. split; [by apply rate_only_fields_Ok|].
    split; [reflexivity|]. cbn [fields]. rewrite Hindex. by simplify_map_eq.
  - intros r' t' Hfrom' Hto'. eexists. split; [by apply rate_only_fields_Ok|].
    split; [reflexivity|]. cbn [fields]. rewrite Hindex. by simplify_map_eq.
  - apply rate_only_store_series_inv.
Qed.

Lemma rate_only_prev_and_next_witness :
  let r := mkRatePoint "2020-06-01T00:00:00Z" "2020-06-01T00:30:00Z" 0.2%float in
  let r' := mkRatePoint "2020-05-31T23:30:00Z" "2020-06-01T00:00:00Z" 0.1%float in
  (exists pt,
     agile_to_influxdb.measurement_point "electricity" samples.schedule r = Ok pt /\
     time pt = "2020-06-01T00:30:00Z" /\
     fields pt !! "agile_rate_prev" = Some (FNum 0.2%float)) /\
  (exists pt',
     agile_to_influxdb.measurement_point "electricity" samples.schedule r' = Ok pt' /\
     time pt' = "2020-06-01T00:00:00Z" /\
     fields pt' !! "agile_rate_next" = Some (FNum 0.2%float)).
Proof.
  intros r r'.
  destruct (rate_only_prev_and_next "electricity" samples.schedule r 1590969600)
    as (Hprev & Hnext & _).
  - apply list_elem_of_In. right. left. reflexivity.
  - vm_compute; reflexivity.
  - vm_compute; reflexivity.
  - intros q Hq Hkey. apply list_elem_of_In in Hq.
    destruct Hq as [<- | [<- | []]]; [vm_compute in Hkey; discriminate | reflexivity].
  - split.
    + apply (Hprev 1590971400). vm_compute; reflexivity.
    + apply (Hnext r' 1590967800); vm_compute; reflexivity.
Defined.

(** ** Durations and boundary order are not checked *)

Lemma dict_comprehension_ext {A V} (key : A -> string) (val : A -> V) l l' :
  Forall2 (fun p p' => key p' = key p /\ val p' = val p) l l' ->
  dict_comprehension key val l' = dict_comprehension key val l.
Proof.
  unfold dict_comprehension. generalize (∅ : gmap string V).
  intros d Hall. revert d.
  induction Hall as [|p p' l l' [Hk Hv] _ IH]; intros d; simpl; [reflexivity|].
  by rewrite Hk, Hv, IH.
Qed.

(** C8 as stated fails: a batch with a reading of one hour, reconciled
    against a schedule whose entry has [valid_to] before [valid_from], is
    not rejected; its point is written, with costs computed from both. *)
Lemma malformed_batch_is_written :
  let m := samples.long_reading in
  let r := mkRatePoint "2020-06-01T00:30:00Z" "2020-06-01T00:00:00Z" 0.1%float in
  exists t_start t_end t_from t_to pt,
    maya_parse (interval_start m) = Ok t_start /\
    maya_parse (interval_end m) = Ok t_end /\
    t_end - t_start <> 1800 /\
    maya_parse (valid_from r) = Ok t_from /\
    maya_parse (valid_to r) = Ok t_to /\
    t_to <= t_from /\
    store_series "electricity"
      (samples.night_electricity samples.backward_schedule) [] [m]
    = (Ok tt, [[pt]]) /\
    fields pt !! "agile_cost" = Some (FNum (0.1 * 0.5)%float).
Proof.
  intros m r.
  exists 1590966000, 1590969600, 1590971400, 1590969600.
  exists (mkPoint "electricity"
            {[ "active_rate" := "unit_rate_high"; "time_of_day" := "00:00" ]}
            "2020-06-01T00:00:00Z"
            (dynamic_fields 0.5 0.1 12 ∪ static_fields 0.5 0.30 24)).
  do 2 (split; [vm_compute; reflexivity|]). split; [lia|].
  do 2 (split; [vm_compute; reflexivity|]). split; [lia|].
  split; vm_compute; reflexivity.
Qed.

(** C8, as amended.  The reconciler checks neither the duration of an
    interval nor the order of a schedule entry's boundaries.  The batch
    depends on an interval's start only through the rate band it selects,
    and on the schedule only through the [valid_to] texts and the values:
    intervals of any duration, and entries with any [valid_from], are
    reconciled and written like well-formed ones. *)
Theorem durations_and_boundary_order_unchecked `{MayaLib} series rate_data connection :
  (forall metrics metrics',
     Forall2 (fun m m' =>
                interval_end m' = interval_end m /\
                consumption m' = consumption m /\
                active_rate_field series rate_data m'
                = active_rate_field series rate_data m) metrics metrics' ->
     store_series series rate_data connection metrics'
     = store_series series rate_data connection metrics) /\
  (forall rates rates' metrics,
     Forall2 (fun r r' => valid_to r' = valid_to r /\
                          value_inc_vat r' = value_inc_vat r) rates rates' ->
     store_series series (with_agile_unit_rates rates' rate_data) connection metrics
     = store_series series (with_agile_unit_rates rates rate_data) connection metrics).
Proof.
  split.
  - intros metrics metrics' Hall. unfold store_series.
    rewrite (comprehension_ext (measurement_point series rate_data)
               (measurement_point series rate_data) metrics' metrics);
      [reflexivity|].
    apply Forall2_flip. eapply Forall2_impl; [exact Hall|].
    intros m m' (Hend & Hc & Hrate). unfold measurement_point.
    rewrite (fields_for_measurement_ext series rate_data m m')
      by (try assumption; by rewrite Hend).
    unfold tags_for_measurement. by rewrite Hend, Hrate.
  - intros rates rates' metrics Hall. unfold store_series.
    rewrite (comprehension_ext
               (measurement_point series (with_agile_unit_rates rates' rate_data))
               (measurement_point series (with_agile_unit_rates rates rate_data))
               metrics metrics); [reflexivity|].
    apply Forall_Forall2_diag, Forall_forall. intros m _.
    unfold measurement_point, tags_for_measurement, fields_for_measurement.
    assert (agile_rates_to (with_agile_unit_rates rates' rate_data)
            = agile_rates_to (with_agile_unit_rates rates rate_data)) as ->.
    { unfold agile_rates_to, agile_data. simpl.
      by apply dict_comprehension_ext. }
    assert (agile_data (with_agile_unit_rates rates' rate_data) = rates') as -> 
      by reflexivity.
    assert (agile_data (with_agile_unit_rates rates rate_data) = rates) as ->
      by reflexivity.
    destruct Hall as [|r r' rates rates' _ _]; reflexivity.
Qed.

Lemma durations_and_boundary_order_unchecked_witness :
  store_series "gas" samples.gas [] [samples.long_reading]
  = store_series "gas" samples.gas []
      [mkConsumption "2020-05-31T23:30:00Z" "2020-06-01T00:00:00Z" 0.5%float].
Proof.
  destruct (durations_and_boundary_order_unchecked "gas" samples.gas [])
    as (Hintervals & _).
  apply Hintervals. constructor; [|constructor].
  split; [reflexivity|]. split; reflexivity.
Defined.

(** * Further properties of the reconciler *)

(** ** Which fields and tags a point has *)

(** X1.  A point of the consumption reconciler has the two tags
    [active_rate] and [time_of_day] and nothing else; its fields are
    [consumption], [cost] and [total_cost], together with the three
    [agile_*] fields exactly when the Agile schedule is not empty. *)
Theorem point_has_these_keys `{MayaLib} series rate_data m pt :
  measurement_point series rate_data m = Ok pt ->
  dom (tags pt) = ({[ "active_rate"; "time_of_day" ]} : gset string) /\
  dom (fields pt)
  = ({[ "consumption"; "cost"; "total_cost" ]} : gset string)
    ∪ (match agile_data rate_data with
       | [] => ∅
       | _ :: _ => {[ "agile_rate"; "agile_cost"; "agile_total_cost" ]}
       end).
Proof.
  intros Hpt.
  apply measurement_point_Ok in Hpt as (tgs & flds & Htags & Hf & ->). simpl.
  apply tags_for_measurement_Ok in Htags as (t & rate & _ & _ & ->).
  apply fields_for_measurement_Ok in Hf
    as (rate' & p & s & _ & _ & _ & Hcases).
  split.
  - rewrite dom_insert_L, dom_singleton_L. set_solver.
  - destruct Hcases as [[-> ->] | (Hcons & a & t' & _ & _ & ->)].
    + unfold static_fields. rewrite !dom_insert_L, dom_singleton_L. set_solver.
    + destruct (agile_data rate_data); [done|].
      unfold static_fields, dynamic_fields.
      rewrite dom_union_L, !dom_insert_L, !dom_singleton_L. set_solver.
Qed.

Lemma point_has_these_keys_witness :
  dom (fields summer_point)
  = ({[ "consumption"; "cost"; "total_cost" ]} : gset string)
    ∪ {[ "agile_rate"; "agile_cost"; "agile_total_cost" ]}.
Proof.
  apply (point_has_these_keys "electricity"
           (samples.night_electricity samples.schedule) samples.summer_reading
           summer_point).
  vm_compute. reflexivity.
Defined.

(** ** The Agile rate of an interval that the schedule covers *)

(** In a dict comprehension the last element of a key decides its value. *)
Lemma dict_comprehension_last {A V} (key : A -> string) (val : A -> V)
    before p after :
  Forall (fun q => key q <> key p) after ->
  dict_comprehension key val (before ++ p :: after) !! key p = Some (val p).
Proof.
  induction after as [|q after IH] using rev_ind; intros Hafter.
  - rewrite (dict_comprehension_snoc key val before p). apply lookup_insert_eq.
  - apply Forall_app in Hafter as [Hafter Hq]. apply Forall_inv in Hq.
    replace (before ++ p :: after ++ [q]) with ((before ++ p :: after) ++ [q])
      by (by rewrite <- app_assoc).
    rewrite dict_comprehension_snoc. rewrite lookup_insert_ne; [by apply IH|].
    exact Hq.
Qed.

(** X2.  When the Agile schedule holds entries whose [valid_to] text is the
    ISO-8601 UTC rendering of the interval's end, the last of them gives the
    interval's Agile rate: [agile_rate] is its [value_inc_vat],
    [agile_cost] is that rate times the consumption and [agile_total_cost]
    adds a 48th of the Agile standing charge. *)
Theorem dynamic_rate_found_last_entry_wins `{MayaLib}
    series rate_data m rate p s a t before r after :
  agile_data rate_data = before ++ r :: after ->
  valid_to r = iso8601 t ->
  Forall (fun q => valid_to q <> iso8601 t) after ->
  active_rate_field series rate_data m = Ok rate ->
  rate_data_getitem rate_data rate = Ok p ->
  standing_charge rate_data = Some s ->
  agile_standing_charge rate_data = Some a ->
  maya_parse (interval_end m) = Ok t ->
  exists pt,
    measurement_point series rate_data m = Ok pt /\
    fields pt !! "agile_rate" = Some (FNum (value_inc_vat r)) /\
    fields pt !! "agile_cost"
    = Some (FNum (value_inc_vat r * consumption m)%float) /\
    fields pt !! "agile_total_cost"
    = Some (FNum (value_inc_vat r * consumption m + a / 48)%float).
Proof.
  intros Hagile Hkey Hafter Hrate Hp Hs Ha Ht.
  assert (agile_data rate_data <> []) as Hne
    by (rewrite Hagile; by destruct before).
  pose proof (measurement_point_dynamic series rate_data m rate p s a t
                Hrate Hp Hs Hne Ha Ht) as Hpt.
  assert (dict_get (agile_rates_to rate_data) (iso8601 t) p = value_inc_vat r)
    as Hget.
  { unfold dict_get, agile_rates_to. rewrite Hagile, <- Hkey.
    rewrite dict_comprehension_last; [reflexivity|].
    by rewrite Hkey. }
  rewrite Hget in Hpt. eexists. split; [exact Hpt|]. simpl.
  destruct (dynamic_fields_lookup (consumption m) (value_inc_vat r) a)
    as (Hd1 & Hd2 & Hd3 & _).
  repeat split; by apply lookup_union_Some_l.
Qed.

Lemma dynamic_rate_found_last_entry_wins_witness :
  exists pt,
    measurement_point "electricity"
      (samples.night_electricity
         (mkRatePoint "2020-05-31T23:30:00Z" "2020-06-01T00:00:00Z" 0.4%float
          :: samples.schedule))
      samples.summer_reading = Ok pt /\
    fields pt !! "agile_rate" = Some (FNum 0.1%float).
Proof.
  destruct (dynamic_rate_found_last_entry_wins "electricity"
              (samples.night_electricity
                 (mkRatePoint "2020-05-31T23:30:00Z" "2020-06-01T00:00:00Z"
                    0.4%float :: samples.schedule))
              samples.summer_reading "unit_rate_low" 0.05%float 24%float
              12%float 1590969600
              [mkRatePoint "2020-05-31T23:30:00Z" "2020-06-01T00:00:00Z" 0.4%float]
              (mkRatePoint "2020-05-31T23:30:00Z" "2020-06-01T00:00:00Z" 0.1%float)
              [mkRatePoint "2020-06-01T00:00:00Z" "2020-06-01T00:30:00Z" 0.2%float])
    as (pt & Hpt & Hrate & _).
  - reflexivity.
  - vm_compute; reflexivity.
  - repeat constructor. vm_compute. discriminate.
  - vm_compute; reflexivity.
  - vm_compute; reflexivity.
  - reflexivity.
  - reflexivity.
  - vm_compute; reflexivity.
  - exists pt. split; [exact Hpt | exact Hrate].
Defined.

(** ** Failure of one interval *)

(** X3.  The first interval of a batch that raises decides the outcome:
    [store_series] raises that interval's exception and writes nothing,
    whatever points the intervals before it gave and whatever follows. *)
Theorem first_failing_interval_aborts_batch `{MayaLib}
    series rate_data connection before m after pts e :
  comprehension (measurement_point series rate_data) before = Ok pts ->
  measurement_point series rate_data m = Raise e ->
  store_series series rate_data connection (before ++ m :: after)
  = (Raise e, connection).
Proof.
  intros Hbefore Hm. unfold store_series.
  assert (comprehension (measurement_point series rate_data)
            (before ++ m :: after) = Raise e) as ->; [|reflexivity].
  clear connection. revert pts Hbefore.
  induction before as [|b before IH]; intros pts Hbefore; simpl.
  - by rewrite Hm.
  - simpl in Hbefore. inv_bind Hbefore. inv_bind Hbefore.
    rewrite Hx. simpl. by rewrite (IH _ Hx0).
Qed.

Lemma first_failing_interval_aborts_batch_witness :
  store_series "electricity" (samples.night_electricity samples.schedule) []
    [samples.summer_reading;
     mkConsumption "2020-06-01T01:00:00+01:00" "half past one" 0.25%float;
     samples.late_reading]
  = (Raise (ParserError "half past one"), []).
Proof.
  apply (first_failing_interval_aborts_batch "electricity"
           (samples.night_electricity samples.schedule) []
           [samples.summer_reading]
           (mkConsumption "2020-06-01T01:00:00+01:00" "half past one" 0.25%float)
           [samples.late_reading] [summer_point]);
    vm_compute; reflexivity.
Defined.

(** ** Single-rate tariffs *)

(** X4.  Under a single-rate tariff (gas, or electricity whose low zone is
    [None] or empty) the point of an interval is computed from the
    interval's end and consumption alone: [interval_start] is never parsed,
    the band is the flat one, and the interval reconciles exactly when its
    end parses. *)
Theorem single_rate_point `{MayaLib} series rate_data rate p s a m :
  (series = "gas" /\ rate = "unit_rate") \/
  (series <> "gas" /\ rate = "unit_rate_high" /\
   exists zone, unit_rate_low_zone rate_data = Some zone /\
                zone_truthy zone = false) ->
  rate_data_getitem rate_data rate = Ok p ->
  standing_charge rate_data = Some s ->
  agile_data rate_data = [] \/ agile_standing_charge rate_data = Some a ->
  measurement_point series rate_data m
  = (t ← maya_parse (interval_end m);
     Ok (mkPoint series
           {[ "active_rate" := rate;
              "time_of_day" := strftime_HM (datetime_of_epoch t) ]}
           (interval_end m)
           (match agile_data rate_data with
            | [] => static_fields (consumption m) p s
            | _ :: _ =>
                dynamic_fields (consumption m)
                  (dict_get (agile_rates_to rate_data) (iso8601 t) p) a
                ∪ static_fields (consumption m) p s
            end))) /\
  (is_Ok (measurement_point series rate_data m)
   <-> is_Ok (maya_parse (interval_end m))).
Proof.
  intros Hflat Hp Hs Hagile.
  assert (active_rate_field series rate_data m = Ok rate) as Hrate.
  { destruct Hflat as [[-> ->] | (Hseries & -> & zone & Hzone & Hfalse)].
    - reflexivity.
    - by eapply active_rate_field_no_zone. }
  assert (measurement_point series rate_data m
          = (t ← maya_parse (interval_end m);
             Ok (mkPoint series
                   {[ "active_rate" := rate;
                      "time_of_day" := strftime_HM (datetime_of_epoch t) ]}
                   (interval_end m)
                   (match agile_data rate_data with
                    | [] => static_fields (consumption m) p s
                    | _ :: _ =>
                        dynamic_fields (consumption m)
                          (dict_get (agile_rates_to rate_data) (iso8601 t) p) a
                        ∪ static_fields (consumption m) p s
                    end)))) as Heq.
  { unfold measurement_point, tags_for_measurement, fields_for_measurement.
    rewrite Hrate.
    destruct (maya_parse (interval_end m)) as [t|e]; [|reflexivity].
    cbn [mbind result_bind maya_datetime].
    rewrite Hp, Hs. cbn [mbind result_bind getitem].
    destruct (agile_data rate_data) as [|r0 rs]; [reflexivity|].
    destruct Hagile as [[=] | ->]. reflexivity. }
  split; [exact Heq|]. rewrite Heq.
  destruct (maya_parse (interval_end m)) as [t|e]; simpl.
  - split; intros _; eexists; reflexivity.
  - split; intros [x [=]].
Qed.

Lemma single_rate_point_witness :
  is_Ok (measurement_point "gas" samples.gas
           (mkConsumption "some time ago" "2020-06-01T00:00:00Z" 0.5%float)).
Proof.
  destruct (single_rate_point "gas" samples.gas "unit_rate" 0.03%float 18%float
              0%float
              (mkConsumption "some time ago" "2020-06-01T00:00:00Z" 0.5%float))
    as (_ & Hok).
  - left. split; reflexivity.
  - reflexivity.
  - reflexivity.
  - left. reflexivity.
  - apply Hok. exists 1590969600. vm_compute. reflexivity.
Defined.



(** ** Batches compose *)

(** X6.  Reconciling the concatenation of two lists in one call writes, as
    one batch, the batch of the first list followed by the batch of the
    second. *)
Theorem store_series_concatenates_batches `{MayaLib}
    series rate_data connection metrics1 metrics2 batch1 batch2 :
  store_series series rate_data connection metrics1
  = (Ok tt, write_points connection batch1) ->
  store_series series rate_data connection metrics2
  = (Ok tt, write_points connection batch2) ->
  store_series series rate_data connection (metrics1 ++ metrics2)
  = (Ok tt, write_points connection (batch1 ++ batch2)).
Proof.
  intros H1 H2.
  apply store_series_inv in H1 as [(b1 & Hb1 & _ & Heq1) | (e & _ & [=] & _)].
  apply store_series_inv in H2 as [(b2 & Hb2 & _ & Heq2) | (e & _ & [=] & _)].
  unfold write_points in Heq1, Heq2.
  apply app_inv_head in Heq1. apply app_inv_head in Heq2.
  injection Heq1 as ->. injection Heq2 as ->.
  apply store_series_Ok. by apply comprehension_app.
Qed.

Lemma store_series_concatenates_batches_witness :
  exists batch,
    store_series "gas" samples.gas [] [samples.reading; samples.long_reading]
    = (Ok tt, [batch]) /\ length batch = 2%nat.
Proof.
  eexists. split.
  - apply (store_series_concatenates_batches "gas" samples.gas []
             [samples.reading] [samples.long_reading]
             [mkPoint "gas"
                {[ "active_rate" := "unit_rate"; "time_of_day" := "12:30" ]}
                "2020-01-15T12:30:00Z" (static_fields 0.5 0.03 18)]
             [mkPoint "gas"
                {[ "active_rate" := "unit_rate"; "time_of_day" := "00:00" ]}
                "2020-06-01T00:00:00Z" (static_fields 0.5 0.03 18)]);
      vm_compute; reflexivity.
  - reflexivity.
Defined.

(** ** Rate-only points *)

Lemma rate_only_point_inv `{MayaLib} series agile_rates m pt :
  agile_to_influxdb.measurement_point series agile_rates m = Ok pt ->
  exists from_dt to_dt,
    maya_parse (valid_from m) = Ok from_dt /\
    maya_parse (valid_to m) = Ok to_dt /\
    pt = mkPoint series ∅ (valid_to m)
           {[ "agile_rate_prev" :=
                agile_to_influxdb.field_of_get
                  (agile_to_influxdb.agile_rates_with_from_dates agile_rates)
                  (iso8601 from_dt);
              "agile_rate_next" :=
                agile_to_influxdb.field_of_get
                  (agile_to_influxdb.agile_rates_with_from_dates agile_rates)
                  (iso8601 to_dt) ]}.
Proof.
  unfold agile_to_influxdb.measurement_point,
    agile_to_influxdb.fields_for_measurement.
  intros Hpt. inv_bind Hpt. injection Hpt as <-.
  do 2 inv_bind Hx. injection Hx as <-.
  by exists x0, x1.
Qed.

Lemma field_of_get_None (d : gmap string float) key :
  agile_to_influxdb.field_of_get d key = FNone <-> d !! key = None.
Proof.
  unfold agile_to_influxdb.field_of_get. destruct (d !! key); split; congruence.
Qed.

(** X7.  A point of rate-only mode has the series as measurement, no tags,
    the entry's [valid_to] text as time and exactly the fields
    [agile_rate_prev] and [agile_rate_next]; a rate that the schedule does
    not hold is stored as [None], the field is not left out.  The following
    rate is [None] exactly when no entry of the schedule has the UTC
    rendering of this entry's end as its [valid_from] text, and likewise
    the preceding rate for this entry's start. *)
Theorem rate_only_point_shape `{MayaLib} series agile_rates m pt :
  agile_to_influxdb.measurement_point series agile_rates m = Ok pt ->
  measurement pt = series /\
  tags pt = ∅ /\
  time pt = valid_to m /\
  dom (fields pt) = ({[ "agile_rate_prev"; "agile_rate_next" ]} : gset string) /\
  exists from_dt to_dt,
    maya_parse (valid_from m) = Ok from_dt /\
    maya_parse (valid_to m) = Ok to_dt /\
    (fields pt !! "agile_rate_prev" = Some FNone
     <-> Forall (fun q => valid_from q <> iso8601 from_dt) agile_rates) /\
    (fields pt !! "agile_rate_next" = Some FNone
     <-> Forall (fun q => valid_from q <> iso8601 to_dt) agile_rates).
Proof.
  intros Hpt.
  apply rate_only_point_inv in Hpt as (from_dt & to_dt & Hfrom & Hto & ->).
  cbn [measurement tags time fields].
  do 3 (split; [reflexivity|]). split.
  - rewrite dom_insert_L, dom_singleton_L. set_solver.
  - exists from_dt, to_dt. do 2 (split; [assumption|]).
    rewrite lookup_insert_eq, lookup_insert_ne, lookup_singleton_eq by done.
    unfold agile_to_influxdb.agile_rates_with_from_dates.
    rewrite <- !(dict_comprehension_None valid_from value_inc_vat).
    rewrite <- !field_of_get_None. split; split; congruence.
Qed.

Lemma rate_only_point_shape_witness :
  exists pt,
    agile_to_influxdb.measurement_point "electricity" samples.schedule
      (mkRatePoint "2020-06-01T00:00:00Z" "2020-06-01T00:30:00Z" 0.2%float)
    = Ok pt /\
    fields pt !! "agile_rate_next" = Some FNone.
Proof.
  set (pt := mkPoint "electricity" ∅ "2020-06-01T00:30:00Z"
               {[ "agile_rate_prev" := FNum 0.2%float;
                  "agile_rate_next" := FNone ]}).
  assert (agile_to_influxdb.measurement_point "electricity" samples.schedule
            (mkRatePoint "2020-06-01T00:00:00Z" "2020-06-01T00:30:00Z" 0.2%float)
          = Ok pt) as Hpt by (vm_compute; reflexivity).
  exists pt. split; [exact Hpt|].
  destruct (rate_only_point_shape "electricity" samples.schedule _ pt Hpt)
    as (_ & _ & _ & _ & from_dt & to_dt & _ & Hto & _ & Hnext).
  apply Hnext. vm_compute in Hto. injection Hto as <-.
  repeat constructor; vm_compute; discriminate.
Defined.

(** X8.  The two modes agree on the rate of a half hour.  For a schedule
    entry whose [valid_from] and [valid_to] texts are the UTC renderings of
    their instants, and with which the entries of the same [valid_from] or
    [valid_to] text agree on the value: the rate-only point of the entry
    has as [agile_rate_prev] the [agile_rate] that the consumption
    reconciler gives an interval ending at the entry's end. *)
Theorem rate_only_prev_matches_consumption_rate `{MayaLib}
    series rate_data m rate p s a r t0 t1 :
  r ∈ agile_data rate_data ->
  maya_parse (valid_from r) = Ok t0 ->
  maya_parse (valid_to r) = Ok t1 ->
  valid_from r = iso8601 t0 ->
  valid_to r = iso8601 t1 ->
  (forall q, q ∈ agile_data rate_data ->
             valid_from q = valid_from r \/ valid_to q = valid_to r ->
             value_inc_vat q = value_inc_vat r) ->
  active_rate_field series rate_data m = Ok rate ->
  rate_data_getitem rate_data rate = Ok p ->
  standing_charge rate_data = Some s ->
  agile_standing_charge rate_data = Some a ->
  maya_parse (interval_end m) = Ok t1 ->
  exists pt_rate pt_use,
    agile_to_influxdb.measurement_point series (agile_data rate_data) r
    = Ok pt_rate /\
    measurement_point series rate_data m = Ok pt_use /\
    fields pt_rate !! "agile_rate_prev" = Some (FNum (value_inc_vat r)) /\
    fields pt_use !! "agile_rate" = Some (FNum (value_inc_vat r)).
Proof.
  intros Hr Hfrom Hto Hcfrom Hcto Hagree Hrate Hp Hs Ha Hend.
  assert (agile_data rate_data <> []) as Hne
    by (intros Hnil; rewrite Hnil in Hr; by apply elem_of_nil in Hr).
  eexists _, _.
  split; [by apply rate_only_fields_Ok|].
  split; [by eapply measurement_point_dynamic|].
  cbn [fields]. split.
  - rewrite <- Hcfrom.
    rewrite (rate_only_index_agree (agile_data rate_data) r Hr)
      by (intros q Hq Hk; apply Hagree; [assumption | by left]).
    by simplify_map_eq.
  - apply lookup_union_Some_l.
    assert (dict_get (agile_rates_to rate_data) (iso8601 t1) p
            = value_inc_vat r) as ->.
    { unfold dict_get, agile_rates_to. rewrite <- Hcto.
      rewrite (dict_comprehension_agree valid_to value_inc_vat
                 (agile_data rate_data) r Hr); [reflexivity|].
      intros q Hq Hk. apply Hagree; [assumption | by right]. }
    apply dynamic_fields_lookup.
Qed.

Lemma rate_only_prev_matches_consumption_rate_witness :
  exists pt_rate,
    agile_to_influxdb.measurement_point "electricity" samples.schedule
      (mkRatePoint "2020-05-31T23:30:00Z" "2020-06-01T00:00:00Z" 0.1%float)
    = Ok pt_rate /\
    fields pt_rate !! "agile_rate_prev" = fields summer_point !! "agile_rate".
Proof.
  destruct (rate_only_prev_matches_consumption_rate "electricity"
              (samples.night_electricity samples.schedule)
              samples.summer_reading "unit_rate_low" 0.05%float 24%float
              12%float
              (mkRatePoint "2020-05-31T23:30:00Z" "2020-06-01T00:00:00Z" 0.1%float)
              1590967800 1590969600)
    as (pt_rate & pt_use & Hpt_rate & Hpt_use & Hprev & Huse).
  - apply list_elem_of_In. left. reflexivity.
  - vm_compute; reflexivity.
  - vm_compute; reflexivity.
  - vm_compute; reflexivity.
  - vm_compute; reflexivity.
  - intros q Hq Hk. apply list_elem_of_In in Hq.
    destruct Hq as [<- | [<- | []]]; [reflexivity|].
    destruct Hk as [Hk | Hk]; vm_compute in Hk; discriminate.
  - vm_compute; reflexivity.
  - vm_compute; reflexivity.
  - reflexivity.
  - reflexivity.
  - vm_compute; reflexivity.
  - exists pt_rate. split; [exact Hpt_rate|].
    assert (pt_use = summer_point) as <-.
    { assert (measurement_point "electricity"
                (samples.night_electricity samples.schedule)
                samples.summer_reading = Ok summer_point) as Hsummer
        by (vm_compute; reflexivity).
      congruence. }
    by rewrite Hprev, Huse.
Defined.

(** * Retrieval *)

Lemma io_bind_inv {B C} (m : IO B) (f : B -> IO C) w r w'' :
  (m ≫= f) w = (r, w'') ->
  (exists b w', m w = (inr b, w') /\ f b w' = (r, w'')) \/
  (exists e, m w = (inl e, w'') /\ r = inl e).
Proof.
  unfold mbind, io_bind. destruct (m w) as [[e|b] w'] eqn:Hm.
  - intros [= <- <-]. right. by exists e.
  - intros Hf. left. by exists b, w'.
Qed.

Lemma with_requests_nil w : with_requests w [] = w.
Proof. destruct w. unfold with_requests. simpl. by rewrite app_nil_r. Qed.

Lemma with_requests_app w l1 l2 :
  with_requests (with_requests w l1) l2 = with_requests w (l1 ++ l2).
Proof. unfold with_requests. simpl. by rewrite app_assoc. Qed.

Section retrieve_facts.
Context {A : Type}.
Variable requests_get : list Request -> Request -> io_exn + Response A.
Variable query_page : string -> option string.
Variables (api_key : string) (url : option string) (from_date to_date : string).

Local Abbreviation retrieve depth page :=
  (retrieve_paginated_data requests_get query_page depth api_key url
     from_date to_date page).
Local Abbreviation request page :=
  (mkRequest url (request_args from_date to_date page) (api_key, "")).

(** One level of the recursion, as an equation. *)
Lemma retrieve_step depth page w :
  retrieve (S depth) page w
  = match requests_get (requested w) (request page) with
    | inl e => (inl e, with_requests w [request page])
    | inr response =>
        if (400 <=? status_code response) && (status_code response <? 600)
        then (inl (HTTPError (status_code response)),
              with_requests w [request page])
        else
          match json response with
          | None => (inl JSONDecodeError, with_requests w [request page])
          | Some data =>
              match page_next data with
              | None => (inl (CoreError (KeyError "next")),
                         with_requests w [request page])
              | Some next =>
                  if str_truthy next then
                    match query_page (default "" next) with
                    | None => (inl (CoreError (KeyError "page")),
                               with_requests w [request page])
                    | Some next_page =>
                        match retrieve depth (Some next_page)
                                (with_requests w [request page]) with
                        | (inr more, w') =>
                            (inr (default [] (page_results data) ++ more), w')
                        | (inl e, w') => (inl e, w')
                        end
                    end
                  else (inr (default [] (page_results data)),
                        with_requests w [request page])
              end
          end
    end.
Proof.
  cbn [retrieve_paginated_data].
  cbv [mbind io_bind http_get raise_for_status response_json io_result getitem
       mret io_ret io_raise].
  fold (with_requests w [request page]).
  destruct (requests_get (requested w) (request page)) as [e|response];
    cbv beta iota zeta; [reflexivity|].
  destruct ((400 <=? status_code response) && (status_code response <? 600));
    cbv beta iota zeta; [reflexivity|].
  destruct (json response) as [data|]; cbv beta iota zeta; [|reflexivity].
  destruct (page_next data) as [next|]; cbv beta iota zeta; [|reflexivity].
  destruct (str_truthy next); cbv beta iota zeta; [|reflexivity].
  destruct (query_page (default "" next)) as [next_page|];
    cbv beta iota zeta; [|reflexivity].
  destruct (retrieve depth (Some next_page) (with_requests w [request page]))
    as [[e|more] w']; reflexivity.
Qed.

(** X9.  When the API serves a chain of pages, each naming the next, and
    Python allows that many nested calls, the retrieval returns the results
    of all pages, in the order of the pages (a page without [results]
    counts as empty), after one request per page; it prints nothing and
    writes nothing. *)
Theorem retrieval_concatenates_pages depth page w pages :
  serves requests_get query_page api_key url from_date to_date
    (requested w) page pages ->
  (length pages <= depth)%nat ->
  exists requests,
    retrieve depth page w
    = (inr (concat (map (fun data => default [] (page_results data)) pages)),
       with_requests w requests) /\
    length requests = length pages.
Proof.
  intros Hserves. remember (requested w) as log eqn:Hlog.
  revert depth w Hlog.
  induction Hserves
    as [log page status data Hget Hstatus (next & Hnext & Hfalse)
       |log page status data u next_page rest Hget Hstatus Hnext Htrue Hpage
          Hrest IH];
    intros depth w -> Hdepth; (destruct depth as [|depth]; [simpl in Hdepth; lia|]);
    rewrite retrieve_step, Hget; cbn [status_code json]; rewrite Hstatus, Hnext.
  - rewrite Hfalse. exists [request page]. split; [|reflexivity].
    simpl. by rewrite app_nil_r.
  - rewrite Htrue. cbn [default from_option id]. rewrite Hpage.
    destruct (IH depth (with_requests w [request page]))
      as (requests & Hrec & Hlen); [reflexivity | simpl in Hdepth; lia |].
    rewrite Hrec. exists (request page :: requests). split.
    + rewrite with_requests_app. reflexivity.
    + simpl. by rewrite Hlen.
Qed.

(** X10.  When a page of the chain breaks (the request fails, the status
    is an error status, the body is not JSON, the [next] key is missing or
    the [next] URL names no page) the retrieval raises that exception after
    exactly the requests up to that page; the results of the pages before
    are not returned. *)
Theorem retrieval_breaks_with_the_page depth page w n e :
  breaks requests_get query_page api_key url from_date to_date
    (requested w) page n e ->
  (n <= depth)%nat ->
  exists requests,
    retrieve depth page w = (inl e, with_requests w requests) /\
    length requests = n.
Proof.
  intros Hbreaks. remember (requested w) as log eqn:Hlog.
  revert depth w Hlog.
  induction Hbreaks
    as [log page e Hget
       |log page response Hget Hstatus
       |log page status Hget Hstatus
       |log page status data Hget Hstatus Hnext
       |log page status data u Hget Hstatus Hnext Htrue Hpage
       |log page status data u next_page n e Hget Hstatus Hnext Htrue Hpage
          Hrest IH];
    intros depth w -> Hdepth; (destruct depth as [|depth]; [lia|]);
    rewrite retrieve_step, Hget; cbn [status_code json];
    try rewrite Hstatus; try rewrite Hnext; try rewrite Htrue;
    cbn [default from_option id]; try rewrite Hpage;
    try (exists [request page]; split; reflexivity).
  destruct (IH depth (with_requests w [request page]))
    as (requests & Hrec & Hlen); [reflexivity | lia |].
  rewrite Hrec. exists (request page :: requests). split.
  - by rewrite with_requests_app.
  - simpl. by rewrite Hlen.
Qed.

(** X12.  Against an API whose every answer names a further page, the
    retrieval never returns: for every number of nested calls that Python
    allows it ends in [RecursionError], after that many requests. *)
Theorem endless_pagination_never_returns depth page w :
  (forall log rq, exists status data u next_page,
      requests_get log rq = inr (mkResponse status (Some data)) /\
      (400 <=? status) && (status <? 600) = false /\
      page_next data = Some (Some u) /\
      str_truthy (Some u) = true /\
      query_page u = Some next_page) ->
  exists requests,
    retrieve depth page w = (inl RecursionError, with_requests w requests) /\
    length requests = depth.
Proof.
  intros Hendless. revert page w.
  induction depth as [|depth IH]; intros page w.
  - exists []. by rewrite with_requests_nil.
  - rewrite retrieve_step.
    destruct (Hendless (requested w) (request page))
      as (status & data & u & next_page & -> & Hstatus & Hnext & Htrue & Hpage).
    cbn [status_code json]. rewrite Hstatus, Hnext, Htrue.
    cbn [default from_option id]. rewrite Hpage.
    destruct (IH (Some next_page) (with_requests w [request page]))
      as (requests & -> & Hlen).
    exists (request page :: requests). split.
    + by rewrite with_requests_app.
    + simpl. by rewrite Hlen.
Qed.

(** X11.  Whatever the API answers, a retrieval only adds requests to the
    world: at least one and at most as many as nested calls are allowed,
    all to the caller's URL with the caller's key as user name, an empty
    password and the caller's period; clients, console and database stay as
    they were. *)
Theorem retrieval_requests depth page w r w' :
  retrieve depth page w = (r, w') ->
  exists requests,
    w' = with_requests w requests /\
    (length requests <= depth)%nat /\
    (depth <> O -> requests <> []) /\
    Forall (fun rq =>
              req_url rq = url /\
              req_auth rq = (api_key, "") /\
              req_params rq !! "period_from" = Some from_date /\
              req_params rq !! "period_to" = Some to_date) requests.
Proof.
  revert page w r w'. induction depth as [|depth IH]; intros page w r w'.
  - intros [= <- <-]. exists []. rewrite with_requests_nil.
    repeat split; [done | lia | constructor].
  - assert (forall r0,
              (r0, with_requests w [request page]) = (r, w') ->
              exists requests,
                w' = with_requests w requests /\
                (length requests <= S depth)%nat /\
                (S depth <> O -> requests <> []) /\
                Forall (fun rq =>
                          req_url rq = url /\
                          req_auth rq = (api_key, "") /\
                          req_params rq !! "period_from" = Some from_date /\
                          req_params rq !! "period_to" = Some to_date)
                  requests) as Hone.
    { intros r0 [= <- <-]. exists [request page].
      repeat split; [simpl; lia | done |].
      constructor; [|constructor]. cbn [req_url req_auth req_params].
      repeat split; unfold request_args;
        destruct (str_truthy page); by simplify_map_eq. }
    rewrite retrieve_step.
    destruct (requests_get (requested w) (request page)) as [e|response];
      [apply Hone|].
    destruct ((400 <=? status_code response) && (status_code response <? 600));
      [apply Hone|].
    destruct (json response) as [data|]; [|apply Hone].
    destruct (page_next data) as [next|]; [|apply Hone].
    destruct (str_truthy next); [|apply Hone].
    destruct (query_page (default "" next)) as [next_page|]; [|apply Hone].
    destruct (retrieve depth (Some next_page) (with_requests w [request page]))
      as [r1 w1] eqn:Hrec.
    apply IH in Hrec as (requests & -> & Hlen & _ & Hall).
    intros Hr.
    assert (w' = with_requests (with_requests w [request page]) requests) as ->
      by (destruct r1; congruence).
    exists (request page :: requests). rewrite with_requests_app.
    repeat split; [simpl; lia | done |].
    constructor; [|exact Hall]. cbn [req_url req_auth req_params].
    repeat split; unfold request_args;
      destruct (str_truthy page); by simplify_map_eq.
Qed.

End retrieve_facts.

(** ** The retrieval on sample APIs *)

Lemma retrieval_concatenates_pages_witness :
  exists requests,
    retrieve_paginated_data sample_api.two_pages sample_api.page_of_query 5
      "sk_live" (Some "https://api.octopus.energy/v1/consumption/")
      "2020-05-31T23:00:00Z" "2020-06-01T23:00:00Z" None sample_api.empty_world
    = (inr [samples.reading; samples.summer_reading; samples.next_reading],
       with_requests sample_api.empty_world requests) /\
    length requests = 2%nat.
Proof.
  apply (retrieval_concatenates_pages sample_api.two_pages
           sample_api.page_of_query "sk_live"
           (Some "https://api.octopus.energy/v1/consumption/")
           "2020-05-31T23:00:00Z" "2020-06-01T23:00:00Z" 5 None
           sample_api.empty_world
           [sample_api.first_page; sample_api.second_page]).
  - eapply serves_more; [vm_compute; reflexivity | reflexivity | reflexivity
                        | reflexivity | vm_compute; reflexivity |].
    eapply serves_last; [vm_compute; reflexivity | reflexivity |].
    exists None. split; reflexivity.
  - simpl. lia.
Defined.

Lemma retrieval_breaks_with_the_page_witness :
  exists requests,
    retrieve_paginated_data sample_api.second_page_down
      sample_api.page_of_query 5
      "sk_live" (Some "https://api.octopus.energy/v1/consumption/")
      "2020-05-31T23:00:00Z" "2020-06-01T23:00:00Z" None sample_api.empty_world
    = (inl (HTTPError 503), with_requests sample_api.empty_world requests) /\
    length requests = 2%nat.
Proof.
  apply (retrieval_breaks_with_the_page sample_api.second_page_down
           sample_api.page_of_query "sk_live"
           (Some "https://api.octopus.energy/v1/consumption/")
           "2020-05-31T23:00:00Z" "2020-06-01T23:00:00Z" 5 None
           sample_api.empty_world 2 (HTTPError 503)).
  - eapply breaks_later; [vm_compute; reflexivity | reflexivity | reflexivity
                         | reflexivity | vm_compute; reflexivity |].
    apply (breaks_status sample_api.second_page_down sample_api.page_of_query
             _ _ _ _ _ _ (mkResponse 503 None));
      [vm_compute; reflexivity | reflexivity].
  - lia.
Defined.

Lemma endless_pagination_never_returns_witness :
  exists requests,
    retrieve_paginated_data sample_api.endless sample_api.page_of_query 7
      "sk_live" (Some "https://api.octopus.energy/v1/consumption/")
      "2020-05-31T23:00:00Z" "2020-06-01T23:00:00Z" None sample_api.empty_world
    = (inl RecursionError, with_requests sample_api.empty_world requests) /\
    length requests = 7%nat.
Proof.
  apply (endless_pagination_never_returns sample_api.endless
           sample_api.page_of_query).
  intros log rq.
  exists 200, sample_api.first_page,
    "https://api.octopus.energy/v1/consumption/?page=2", "2".
  repeat split; vm_compute; reflexivity.
Defined.

Lemma retrieval_requests_witness :
  exists requests,
    snd (retrieve_paginated_data sample_api.two_pages sample_api.page_of_query 5
           "sk_live" (Some "https://api.octopus.energy/v1/consumption/")
           "2020-05-31T23:00:00Z" "2020-06-01T23:00:00Z" None
           sample_api.empty_world)
    = with_requests sample_api.empty_world requests /\
    Forall (fun rq => req_auth rq = ("sk_live", "")) requests.
Proof.
  destruct (retrieval_requests sample_api.two_pages sample_api.page_of_query
              "sk_live" (Some "https://api.octopus.energy/v1/consumption/")
              "2020-05-31T23:00:00Z" "2020-06-01T23:00:00Z" 5 None
              sample_api.empty_world _ _ (surjective_pairing _))
    as (requests & Hworld & _ & _ & Hall).
  exists requests. split; [exact Hworld|].
  eapply Forall_impl; [exact Hall|]. intros rq (_ & Hauth & _). exact Hauth.
Defined.

(** * The commands *)

Lemma pure_keeps {B X} (proj : World -> X) (m : IO B) :
  pure_io m -> keeps proj m.
Proof. intros Hpure w r w' Hm. by rewrite (Hpure w r w' Hm). Qed.

Lemma pure_ret {B} (b : B) : pure_io (mret b).
Proof. by intros w r w' [= _ <-]. Qed.

Lemma pure_raise {B} e : pure_io (@io_raise B e).
Proof. by intros w r w' [= _ <-]. Qed.

Lemma pure_result {B} (x : result B) : pure_io (io_result x).
Proof. destruct x; [apply pure_ret | apply pure_raise]. Qed.

Lemma pure_bind {B C} (m : IO B) (f : B -> IO C) :
  pure_io m -> (forall b, pure_io (f b)) -> pure_io (m ≫= f).
Proof.
  intros Hm Hf w r w'' Hbind.
  apply io_bind_inv in Hbind as [(b & w' & Hrun & Hrest) | (e & Hrun & _)].
  - apply Hm in Hrun as ->. by apply Hf in Hrest.
  - by apply Hm in Hrun.
Qed.

Lemma keeps_bind {B C X} (proj : World -> X) (m : IO B) (f : B -> IO C) :
  keeps proj m -> (forall b, keeps proj (f b)) -> keeps proj (m ≫= f).
Proof.
  intros Hm Hf w r w'' Hbind.
  apply io_bind_inv in Hbind as [(b & w' & Hrun & Hrest) | (e & Hrun & _)].
  - apply Hm in Hrun. apply Hf in Hrest. congruence.
  - by apply Hm in Hrun.
Qed.

Section config_facts.
Variable config : string -> string -> config_value.
Variable float_of_string : string -> option float.
Variable int_of_string : string -> option Z.

Lemma pure_config_get section name : pure_io (config_get config section name).
Proof.
  unfold config_get.
  destruct (config section name); auto using @pure_ret, @pure_raise.
Qed.

Lemma pure_config_get_conv {B} (conv : string -> IO B) section name fallback :
  (forall v, pure_io (conv v)) ->
  pure_io (config_get_conv config conv section name fallback).
Proof.
  intros Hconv. unfold config_get_conv.
  destruct (config section name); auto using @pure_ret, @pure_raise.
Qed.

Lemma pure_config_get_str section name fallback :
  pure_io (config_get_str config section name fallback).
Proof. apply pure_config_get_conv. intros v. apply pure_ret. Qed.

Lemma pure_config_get_opt section name :
  pure_io (config_get_opt config section name).
Proof. apply pure_config_get_conv. intros v. apply pure_ret. Qed.

Lemma pure_config_getfloat section name fallback :
  pure_io (config_getfloat config float_of_string section name fallback).
Proof.
  apply pure_config_get_conv. intros v.
  destruct (float_of_string v); auto using @pure_ret, @pure_raise.
Qed.

Lemma pure_config_getint section name fallback :
  pure_io (config_getint config int_of_string section name fallback).
Proof.
  apply pure_config_get_conv. intros v.
  destruct (int_of_string v); auto using @pure_ret, @pure_raise.
Qed.

(** What a lookup with [fallback=None] returns. *)
Lemma config_get_opt_value section name w v w' :
  config_get_opt config section name w = (inr v, w') ->
  match config section name with
  | Found x => v = Some x
  | _ => v = None
  end.
Proof.
  unfold config_get_opt, config_get_conv.
  destruct (config section name); by intros [= <- _].
Qed.

Lemma config_get_value section name w v w' :
  config_get config section name w = (inr v, w') ->
  config section name = Found v.
Proof.
  unfold config_get. destruct (config section name); try discriminate.
  by intros [= <- _].
Qed.

(** Creating the client touches neither requests nor console nor
    database. *)
Lemma connect_influx_keeps {X} (proj : World -> X) :
  (forall w settings,
     proj (mkWorld (requested w) (clients w ++ [settings]) (console w) (influx w))
     = proj w) ->
  keeps proj (connect_influx config int_of_string).
Proof.
  intros Hproj. unfold connect_influx.
  repeat (apply keeps_bind;
          [apply pure_keeps;
           first [apply pure_config_get_str | apply pure_config_getint]
          | intros ?]).
  intros w r w' [= _ <-]. apply Hproj.
Qed.

End config_facts.

Lemma echo_keeps {X} (proj : World -> X) msg nl :
  (forall w text,
     proj (mkWorld (requested w) (clients w) (console w ++ [text]) (influx w))
     = proj w) ->
  keeps proj (echo msg nl).
Proof. intros Hproj w r w' [= _ <-]. apply Hproj. Qed.

Lemma retrieve_keeps_influx {A} (requests_get : list Request -> Request -> io_exn + Response A)
    query_page depth api_key url from_date to_date page :
  keeps influx (retrieve_paginated_data requests_get query_page depth api_key
                  url from_date to_date page).
Proof.
  intros w r w' Hrun.
  apply retrieval_requests in Hrun as (requests & -> & _). reflexivity.
Qed.

(** A [store_series] call of the consumption reconciler, as a command:
    an exception leaves the database alone, success adds one batch whose
    points carry the series as measurement, one for each reading. *)
Lemma io_store_series `{MayaLib} series rate_data metrics w r w' :
  io_store (fun connection =>
              octopus_to_influxdb.store_series series rate_data connection
                metrics) w = (r, w') ->
  requested w' = requested w /\
  ((exists e, r = inl e /\ influx w' = influx w) \/
   (exists batch,
      r = inr tt /\ influx w' = influx w ++ [batch] /\
      length batch = length metrics /\
      Forall (fun pt => measurement pt = series) batch)).
Proof.
  unfold io_store.
  destruct (octopus_to_influxdb.store_series series rate_data (influx w) metrics)
    as [r0 connection] eqn:Hstore.
  apply store_series_inv in Hstore
    as [(batch & Hbatch & -> & ->) | (e & _ & -> & ->)].
  - intros [= <- <-]. split; [reflexivity|]. right. exists batch.
    do 2 (split; [reflexivity|]). split; [by eapply comprehension_length|].
    apply comprehension_Forall2 in Hbatch.
    clear -Hbatch. induction Hbatch as [|m pt ms pts Hpt _ IH]; constructor;
      [|exact IH].
    apply measurement_point_Ok in Hpt as (tgs & flds & _ & _ & ->). reflexivity.
  - intros [= <- <-]. split; [reflexivity|]. left. by exists (CoreError e).
Qed.

Lemma io_store_keeps_requested store : keeps requested (io_store store).
Proof.
  intros w r w'. unfold io_store.
  destruct (store (influx w)) as [[x|e] connection]; by intros [= _ <-].
Qed.

(** A [store_series] call of rate-only mode, as a command. *)
Lemma io_store_rates `{MayaLib} series agile_rates w r w' :
  io_store (agile_to_influxdb.store_series series agile_rates) w = (r, w') ->
  (exists e, r = inl e /\ influx w' = influx w) \/
  (exists batch,
     r = inr tt /\ influx w' = influx w ++ [batch] /\
     batch <> [] /\
     length batch = length agile_rates /\
     Forall (fun pt => measurement pt = series /\ tags pt = ∅) batch).
Proof.
  unfold io_store.
  destruct (agile_to_influxdb.store_series series agile_rates (influx w))
    as [[[]|e] connection] eqn:Hstore.
  - assert (agile_rates <> []) as Hne by (intros ->; discriminate).
    apply rate_only_store_series_inv in Hstore as (batch & -> & Hall).
    intros [= <- <-]. right. exists batch.
    do 2 (split; [done|]).
    assert (length batch = length agile_rates) as Hlen
      by (symmetry; eapply Forall2_length, Hall).
    split; [|split; [exact Hlen|]].
    + intros ->. destruct agile_rates; [by destruct Hne | discriminate].
    + clear -Hall. induction Hall as [|q pt qs pts Hpt _ IH]; constructor;
        [|exact IH].
      apply rate_only_point_inv in Hpt as (from_dt & to_dt & _ & _ & ->). done.
  - intros [= <- <-]. left. exists (CoreError e).
    split; [reflexivity|]. cbn [influx].
    unfold agile_to_influxdb.store_series in Hstore.
    destruct agile_rates as [|r0 rs]; [by injection Hstore as _ <-|].
    destruct (comprehension _ (r0 :: rs)); [discriminate|].
    by injection Hstore as _ <-.
Qed.

(** ** Stepping through a command *)

Ltac pure_io_tac :=
  first [ apply pure_config_get | apply pure_config_get_opt
        | apply pure_config_get_str | apply pure_config_getfloat
        | apply pure_config_getint | apply pure_result
        | apply pure_raise | apply pure_ret ].

Ltac keeps_influx_tac :=
  first [ apply retrieve_keeps_influx
        | apply echo_keeps; reflexivity
        | apply connect_influx_keeps; reflexivity
        | apply pure_keeps; pure_io_tac ].

Ltac keeps_outside_tac :=
  first [ apply connect_influx_keeps; reflexivity
        | apply pure_keeps; pure_io_tac ].

Ltac keeps_requested_tac :=
  first [ apply echo_keeps; reflexivity
        | apply connect_influx_keeps; reflexivity
        | apply io_store_keeps_requested
        | apply pure_keeps; pure_io_tac ].

(** [Hm : proj w2 = proj w1] after [Hprev : proj w1 = x]. *)
Ltac io_chain Hm :=
  lazymatch type of Hm with
  | ?proj _ = ?proj ?a =>
      try match goal with
          | Hprev : proj a = _ |- _ => rewrite Hprev in Hm; clear Hprev
          end
  end.

(** One bind of the run [H], for commands that keep [proj]; [leaf] closes
    the case of an exception. *)
Ltac io_step proj keeps_tac leaf H :=
  let Hm := fresh "Hm" in
  let Hv := fresh "Hv" in
  apply io_bind_inv in H as [(? & ? & Hm & H) | (? & Hm & ->)];
  [ pose proof Hm as Hv;
    first [ apply config_get_value in Hv
          | apply config_get_opt_value in Hv
          | clear Hv ]
  | ];
  (lazymatch type of Hm with
   | ?m ?w0 = _ =>
       let K := fresh "K" in
       assert (K : keeps proj m) by keeps_tac;
       apply K in Hm; clear K
   end);
  io_chain Hm;
  [ | leaf ].

(** A check of the run [H] that raises in its first branch. *)
Ltac io_branch proj leaf H :=
  lazymatch type of H with
  | (if ?c then _ else _) ?w0 = _ =>
      let Hm := fresh "Hm" in
      let Hc := fresh "Hc" in
      destruct c eqn:Hc;
      [ injection H as <- Hm; symmetry in Hm;
        apply (f_equal proj) in Hm; io_chain Hm; leaf
      | ]
  end.

(** ** The consumption command *)

Lemma str_truthy_unset config section name v :
  unset config section name ->
  match config section name with
  | Found x => v = Some x
  | _ => v = None
  end ->
  str_truthy v = false.
Proof.
  intros Hunset Hv.
  destruct (config section name) as [x| | |] eqn:Hc; subst v; try reflexivity.
  by rewrite (Hunset x Hc).
Qed.

Ltac quiet_leaf :=
  idtac;
  match goal with
  | Hm : outside ?w' = outside ?w |- _ =>
      injection Hm as ? ? ?; split; [by eexists | by repeat split]
  end.

(** X13.  The consumption command needs the API key, both electricity
    identifiers and both gas identifiers: when one of them is missing or
    empty the command raises, and it has then made no request, printed
    nothing and written nothing. *)
Theorem cmd_checks_identifiers_first `{MayaLib}
    config float_of_string int_of_string maya_when_zone get_consumption
    get_rates query_page depth from_date to_date w r w' :
  unset config "octopus" "api_key" \/
  unset config "electricity" "mpan" \/
  unset config "electricity" "serial_number" \/
  unset config "gas" "mpan" \/
  unset config "gas" "serial_number" ->
  octopus_main.cmd config float_of_string int_of_string maya_when_zone
    get_consumption get_rates query_page depth from_date to_date w = (r, w') ->
  (exists e, r = inl e) /\
  requested w' = requested w /\ console w' = console w /\ influx w' = influx w.
Proof.
  unfold octopus_main.cmd. intros Hunset Hrun.
  do 2 io_step outside keeps_outside_tac quiet_leaf Hrun.
  io_branch outside quiet_leaf Hrun.
  do 2 io_step outside keeps_outside_tac quiet_leaf Hrun.
  io_branch outside quiet_leaf Hrun.
  do 3 io_step outside keeps_outside_tac quiet_leaf Hrun.
  io_branch outside quiet_leaf Hrun.
  exfalso.
  apply bool_decide_eq_false in Hc.
  apply orb_false_elim in Hc0 as [He1 He2], Hc1 as [Hg1 Hg2].
  apply negb_false_iff in He1, He2, Hg1, Hg2.
  destruct Hunset as [Hu | [Hu | [Hu | [Hu | Hu]]]].
  - by apply Hc, Hu.
  - by rewrite (str_truthy_unset _ _ _ _ Hu Hv0) in He1.
  - by rewrite (str_truthy_unset _ _ _ _ Hu Hv1) in He2.
  - by rewrite (str_truthy_unset _ _ _ _ Hu Hv3) in Hg1.
  - by rewrite (str_truthy_unset _ _ _ _ Hu Hv4) in Hg2.
Qed.

Ltac batches_leaf :=
  idtac;
  split;
  [ discriminate
  | intros ? _;
    first [ left; congruence
          | right; eexists; split; [eassumption || congruence | eassumption] ] ].

(** X14.  The consumption command writes the electricity batch before it
    asks for the gas readings.  A run that ends well has added exactly two
    batches to the database, the electricity points and then the gas
    points; a run that raises has added nothing, or the electricity batch
    alone. *)
Theorem cmd_writes_electricity_then_gas `{MayaLib}
    config float_of_string int_of_string maya_when_zone get_consumption
    get_rates query_page depth from_date to_date w r w' :
  octopus_main.cmd config float_of_string int_of_string maya_when_zone
    get_consumption get_rates query_page depth from_date to_date w = (r, w') ->
  (r = inr tt ->
   exists eb gb,
     influx w' = influx w ++ [eb; gb] /\
     Forall (fun pt => measurement pt = "electricity") eb /\
     Forall (fun pt => measurement pt = "gas") gb) /\
  (forall e, r = inl e ->
     influx w' = influx w \/
     exists eb, influx w' = influx w ++ [eb] /\
                Forall (fun pt => measurement pt = "electricity") eb).
Proof.
  unfold octopus_main.cmd. intros Hrun.
  repeat first [ io_step influx keeps_influx_tac batches_leaf Hrun
               | io_branch influx batches_leaf Hrun ].
  apply io_bind_inv in Hrun as [(? & wE & HE & Hrun) | (? & HE & ->)];
    apply io_store_series in HE
      as (_ & [(e & He & HinfE) | (eb & He & HinfE & _ & Heb)]);
    try discriminate;
    match goal with
    | Hprev : influx ?a = influx w, Hi : influx _ = influx ?a ++ _ |- _ =>
        rewrite Hprev in Hi; clear Hprev
    | Hprev : influx ?a = influx w, Hi : influx _ = influx ?a |- _ =>
        rewrite Hprev in Hi; clear Hprev
    end.
  2: { split; [discriminate | intros ? _; left; assumption]. }
  repeat first [ io_step influx keeps_influx_tac batches_leaf Hrun
               | io_branch influx batches_leaf Hrun ].
  apply io_store_series in Hrun
    as (_ & [(e & -> & HinfG) | (gb & -> & HinfG & _ & Hgb)]).
  - split; [discriminate|]. intros ? _. right. exists eb.
    split; [congruence | assumption].
  - split; [|discriminate]. intros _. exists eb, gb.
    split; [|by split]. rewrite HinfG.
    match goal with
    | Hc : influx _ = influx w ++ [eb] |- _ => rewrite Hc
    end.
    by rewrite <- app_assoc.
Qed.

(** ** The rate-only command *)

Ltac unchanged_leaf :=
  idtac; split; [discriminate | intros ? _; congruence].

(** X15.  A run of the rate-only command that ends well has added exactly
    one batch to the database, never an empty one; its points are
    [electricity] points without tags.  A run that raises (for instance
    because the API returned no rates) has written nothing. *)
Theorem agile_cmd_writes_one_batch `{MayaLib}
    config int_of_string maya_when_zone get_rates query_page depth
    from_date to_date w r w' :
  agile_main.cmd config int_of_string maya_when_zone get_rates query_page
    depth from_date to_date w = (r, w') ->
  (r = inr tt ->
   exists batch,
     influx w' = influx w ++ [batch] /\ batch <> [] /\
     Forall (fun pt => measurement pt = "electricity" /\ tags pt = ∅) batch) /\
  (forall e, r = inl e -> influx w' = influx w).
Proof.
  unfold agile_main.cmd. intros Hrun.
  repeat first [ io_step influx keeps_influx_tac unchanged_leaf Hrun
               | io_branch influx unchanged_leaf Hrun ].
  apply io_store_rates in Hrun
    as [(e & -> & Hinf) | (batch & -> & Hinf & Hne & _ & Hall)].
  - split; [discriminate|]. intros ? _. congruence.
  - split; [|discriminate]. intros _. exists batch.
    split; [congruence|]. by split.
Qed.

(** ** The requests of a run *)

Lemma sends_keeps {B} P n (m : IO B) : keeps requested m -> sends P n m.
Proof.
  intros Hkeeps w r w' Hrun. exists []. rewrite app_nil_r.
  split; [by eapply Hkeeps|]. split; [simpl; lia | constructor].
Qed.

Lemma sends_bind {B C} P n k (m : IO B) (f : B -> IO C) :
  sends P n m -> (forall b, sends P k (f b)) -> sends P (n + k) (m ≫= f).
Proof.
  intros Hm Hf w r w'' Hrun.
  apply io_bind_inv in Hrun as [(b & w' & Hrun & Hrest) | (e & Hrun & _)].
  - apply Hm in Hrun as (l1 & Hw1 & Hn1 & Hall1).
    apply Hf in Hrest as (l2 & Hw2 & Hn2 & Hall2).
    exists (l1 ++ l2). rewrite Hw2, Hw1, app_assoc.
    split; [reflexivity|]. split; [rewrite length_app; lia|].
    by apply Forall_app.
  - apply Hm in Hrun as (l1 & Hw1 & Hn1 & Hall1).
    exists l1. split; [assumption|]. split; [lia | assumption].
Qed.

Lemma sends_bind_keeps {B C} P n (m : IO B) (f : B -> IO C) :
  keeps requested m -> (forall b, sends P n (f b)) -> sends P n (m ≫= f).
Proof.
  intros Hm Hf. apply (sends_bind P 0 n); [by apply sends_keeps | assumption].
Qed.

Lemma sends_if {B} P n (c : bool) (a b : IO B) :
  sends P n a -> sends P n b -> sends P n (if c then a else b).
Proof. by destruct c. Qed.

Lemma sends_retrieve {A}
    (requests_get : list Request -> Request -> io_exn + Response A)
    query_page depth api_key url from_date to_date page :
  sends (asks api_key from_date to_date) depth
    (retrieve_paginated_data requests_get query_page depth api_key url
       from_date to_date page).
Proof.
  intros w r w' Hrun.
  apply retrieval_requests in Hrun as (requests & -> & Hlen & _ & Hall).
  exists requests. split; [reflexivity|]. split; [assumption|].
  eapply Forall_impl; [exact Hall|]. by intros rq (_ & ? & ? & ?).
Qed.

Lemma sends_alike_keeps {B} n (m : IO B) : keeps requested m -> sends_alike n m.
Proof.
  intros Hkeeps w r w' Hrun. exists [], "", "", "". rewrite app_nil_r.
  split; [by eapply Hkeeps|]. split; [simpl; lia | constructor].
Qed.

Lemma sends_alike_bind {B C} n (m : IO B) (f : B -> IO C) :
  keeps requested m -> (forall b, sends_alike n (f b)) ->
  sends_alike n (m ≫= f).
Proof.
  intros Hm Hf w r w'' Hrun.
  apply io_bind_inv in Hrun as [(b & w' & Hrun & Hrest) | (e & Hrun & _)].
  - apply Hm in Hrun. apply Hf in Hrest as (l & k & f0 & t0 & Hw & Hrest).
    exists l, k, f0, t0. by rewrite Hw, Hrun.
  - exists [], "", "", "". rewrite app_nil_r.
    split; [by eapply Hm|]. split; [simpl; lia | constructor].
Qed.

Lemma sends_alike_if {B} n (c : bool) (a b : IO B) :
  sends_alike n a -> sends_alike n b -> sends_alike n (if c then a else b).
Proof. by destruct c. Qed.

Lemma sends_alike_intro {B} api_key from_date to_date n k (m : IO B) :
  sends (asks api_key from_date to_date) n m -> (n <= k)%nat -> sends_alike k m.
Proof.
  intros Hm Hle w r w' Hrun. apply Hm in Hrun as (l & Hw & Hlen & Hall).
  exists l, api_key, from_date, to_date. split; [assumption|].
  split; [lia | assumption].
Qed.

(** The part of a command that only reads the configuration and the
    dates. *)
Ltac sends_alike_prelude :=
  repeat first
    [ apply sends_alike_if; [apply sends_alike_keeps; keeps_requested_tac|]
    | lazymatch goal with
      | |- sends_alike _ (echo _ _ ≫= _) => fail
      | |- _ => apply sends_alike_bind; [keeps_requested_tac | intros ?]
      end ].

(** The part that retrieves, prints and stores. *)
Ltac sends_tac :=
  repeat first
    [ apply sends_if
    | apply sends_bind_keeps; [keeps_requested_tac | intros ?]
    | apply sends_bind; [apply sends_retrieve | intros ?]
    | apply sends_keeps; keeps_requested_tac ].

(** X16.  All requests of a run of the consumption command carry the same
    credentials (the key as user name, an empty password) and the same
    period, and there are at most three retrievals' worth of them; the
    rate-only command makes at most one retrieval's worth. *)
Theorem cmd_requests_are_alike `{MayaLib}
    config float_of_string int_of_string maya_when_zone get_consumption
    get_rates query_page depth from_date to_date :
  sends_alike (3 * depth)
    (octopus_main.cmd config float_of_string int_of_string maya_when_zone
       get_consumption get_rates query_page depth from_date to_date) /\
  sends_alike depth
    (agile_main.cmd config int_of_string maya_when_zone get_rates query_page
       depth from_date to_date).
Proof.
  split.
  - unfold octopus_main.cmd. sends_alike_prelude.
    eapply sends_alike_intro with (n := (depth + (depth + (depth + 0)))%nat);
      [|lia].
    sends_tac.
  - unfold agile_main.cmd. sends_alike_prelude.
    eapply sends_alike_intro with (n := (depth + 0)%nat); [|lia].
    sends_tac.
Qed.

(** ** The commands on the sample installation *)

Lemma cmd_checks_identifiers_first_witness :
  fst sample_run.run_without_gas_meter
  = inl (CoreError (ClickException "No gas meter identifiers")) /\
  requested (snd sample_run.run_without_gas_meter) = [] /\
  influx (snd sample_run.run_without_gas_meter) = [].
Proof.
  pose proof (surjective_pairing sample_run.run_without_gas_meter) as Hrun.
  unfold sample_run.run_without_gas_meter in Hrun at 1.
  apply cmd_checks_identifiers_first in Hrun
    as (_ & Hrequested & _ & Hinflux).
  - split; [vm_compute; reflexivity|]. split; assumption.
  - right. right. right. left. intros v Hv. vm_compute in Hv. discriminate.
Defined.

Lemma cmd_writes_electricity_then_gas_witness :
  fst sample_run.run_with_gas_down = inl (HTTPError 503) /\
  exists eb, influx (snd sample_run.run_with_gas_down) = [eb] /\
             Forall (fun pt => measurement pt = "electricity") eb.
Proof.
  assert (fst sample_run.run_with_gas_down = inl (HTTPError 503)) as Hfails
    by (vm_compute; reflexivity).
  split; [exact Hfails|].
  pose proof (surjective_pairing sample_run.run_with_gas_down) as Hrun.
  unfold sample_run.run_with_gas_down in Hrun at 1.
  apply cmd_writes_electricity_then_gas in Hrun as (_ & Hraised).
  destruct (Hraised (HTTPError 503) Hfails) as [Hnothing | Hone].
  - apply (f_equal length) in Hnothing. vm_compute in Hnothing. discriminate.
  - exact Hone.
Defined.

Lemma agile_cmd_writes_one_batch_witness :
  exists batch,
    influx (snd sample_run.run_rates_only) = [batch] /\ batch <> [].
Proof.
  pose proof (surjective_pairing sample_run.run_rates_only) as Hrun.
  unfold sample_run.run_rates_only in Hrun at 1.
  apply agile_cmd_writes_one_batch in Hrun as (Hdone & _).
  destruct Hdone as (batch & Hbatch & Hne & _); [vm_compute; reflexivity|].
  exists batch. split; [exact Hbatch | exact Hne].
Defined.

Lemma cmd_requests_are_alike_witness :
  exists requests api_key from_date to_date,
    requested (snd sample_run.run_with_gas_down) = requests /\
    (length requests <= 15)%nat /\
    Forall (asks api_key from_date to_date) requests.
Proof.
  pose proof (surjective_pairing sample_run.run_with_gas_down) as Hrun.
  unfold sample_run.run_with_gas_down in Hrun at 1.
  destruct (cmd_requests_are_alike (sample_run.config_of sample_run.options)
              sample_run.no_number sample_run.no_number sample_run.when_iso
              sample_run.gas_down sample_run.rates sample_api.page_of_query 5
              "2020-01-15T00:00:00Z" "2020-01-16T00:00:00Z")
    as (Hmain & _).
  apply Hmain in Hrun
    as (requests & api_key & f & t & Hrequested & Hlen & Hall).
  exists requests, api_key, f, t. split; [exact Hrequested|].
  split; [exact Hlen | exact Hall].
Defined.

(** * Two more facts about the reconciler *)

(** X17.  With a low zone but the same clock time as start and end of the
    low band (the fallbacks of [cmd] are 00:00 and 00:00) the band is
    empty: every interval whose start parses is in the high band. *)
Theorem equal_clock_times_mean_high `{MayaLib}
    series rate_data m zone clock t day instant :
  series <> "gas" ->
  unit_rate_low_zone rate_data = Some (Some zone) ->
  zone <> "" ->
  unit_rate_low_start rate_data = Some clock ->
  unit_rate_low_end rate_data = Some clock ->
  maya_parse (interval_start m) = Ok t ->
  maya_datetime (Some zone) t = Ok day ->
  maya_when (strftime_Ymd day +:+ "T" +:+ clock) zone = Ok instant ->
  active_rate_field series rate_data m = Ok "unit_rate_high".
Proof.
  intros Hseries Hzone Hne Hstart Hend Ht Hday Hwhen.
  rewrite (active_rate_field_band series rate_data m zone clock clock t day
             instant instant) by assumption.
  unfold new_MayaInterval.
  destruct (Z.gtb_spec instant instant) as [Hgt|_]; [lia|].
  cbn [mbind result_bind]. unfold interval_contains. cbn [iv_start iv_end].
  destruct (Z.leb_spec instant t), (Z.ltb_spec t instant);
    simpl; first [reflexivity | lia].
Qed.

Lemma equal_clock_times_mean_high_witness :
  active_rate_field "electricity"
    (mkRateData (Some 24%float) None (Some 0.30%float) (Some 0.05%float)
       (Some "00:00") (Some "00:00") (Some (Some "Europe/London"))
       (Some 0%float) (Some []))
    samples.summer_reading
  = Ok "unit_rate_high".
Proof.
  apply (equal_clock_times_mean_high "electricity" _ samples.summer_reading
           "Europe/London" "00:00" 1590967800 (mkDateTime 2020 6 1 0 30 0)
           1590966000).
  - discriminate.
  - reflexivity.
  - discriminate.
  - reflexivity.
  - reflexivity.
  - vm_compute; reflexivity.
  - vm_compute; reflexivity.
  - vm_compute; reflexivity.
Defined.

(** X18.  Rate-only reconciliation writes exactly when the schedule is not
    empty and both time stamps of every entry parse; gaps in the schedule
    do not matter.  The batch then has one point per entry, in order, each
    at its entry's [valid_to]. *)
Theorem rate_only_writes_iff_schedule_parses `{MayaLib}
    series agile_rates connection :
  (fst (agile_to_influxdb.store_series series agile_rates connection) = Ok tt
   <-> agile_rates <> [] /\
       Forall (fun q => is_Ok (maya_parse (valid_from q)) /\
                        is_Ok (maya_parse (valid_to q))) agile_rates) /\
  (forall connection',
     agile_to_influxdb.store_series series agile_rates connection
     = (Ok tt, connection') ->
     exists batch,
       connection' = write_points connection batch /\
       Forall2 (fun q pt => time pt = valid_to q) agile_rates batch).
Proof.
  split; [split|].
  - intros Hok.
    destruct (agile_to_influxdb.store_series series agile_rates connection)
      as [r connection'] eqn:Hstore.
    simpl in Hok. subst r. split.
    + intros ->. discriminate.
    + apply rate_only_store_series_inv in Hstore as (batch & _ & Hall).
      clear -Hall. induction Hall as [|q pt qs pts Hpt _ IH]; constructor;
        [|exact IH].
      apply rate_only_point_inv in Hpt as (f & t & Hf & Ht & _).
      split; eexists; eassumption.
  - intros [Hne Hall]. unfold agile_to_influxdb.store_series.
    destruct agile_rates as [|r0 rs] eqn:Hrates; [by destruct Hne|].
    rewrite <- Hrates in *. clear Hrates Hne.
    destruct (comprehension_total
                (agile_to_influxdb.measurement_point series agile_rates)
                agile_rates) as [batch ->]; [|reflexivity].
    eapply Forall_impl; [exact Hall|].
    intros q [[f Hf] [t Ht]]. eexists. by apply rate_only_fields_Ok.
  - intros connection' Hstore.
    apply rate_only_store_series_inv in Hstore as (batch & -> & Hall).
    exists batch. split; [reflexivity|].
    eapply Forall2_impl; [exact Hall|]. intros q pt Hpt.
    apply rate_only_point_inv in Hpt as (f & t & _ & _ & ->). reflexivity.
Qed.

Lemma rate_only_writes_iff_schedule_parses_witness :
  fst (agile_to_influxdb.store_series "electricity" samples.schedule [])
  = Ok tt.
Proof.
  destruct (rate_only_writes_iff_schedule_parses "electricity"
              samples.schedule []) as ((_ & Hwrites) & _).
  apply Hwrites. split; [discriminate|].
  repeat constructor; eexists; vm_compute; reflexivity.
Defined.
